(** * Event planner: record store access, theme parsing and plan prompts

    A shallow embedding of [src/db_setup.py],
    [src/event_planning_nemo/event_planning_nemo.py] and
    [src/event_planning_nemo/register.py].

    Conventions.
    - A Python [str] is a [string]; each [ascii] stands for the code point
      of the same number (code points below 256).  On that range the
      whitespace test of [str.strip] and of the regex class [\s] is
      [is_space], and the regex class [\d] is [is_digit].
    - A Python value of unknown shape (the completion response) is a
      [pyvalue]: a decoded JSON value or an opaque object.
    - An exception is an [exn]; only subclasses of [Exception] are
      represented, since those are what the external calls raise.
    - Code that opens connections, writes rows or prints runs in the monad
      [M] over a [World].
    - The database file named by [db_path] can be opened: the case in
      which [sqlite3.connect] itself raises is not represented in the
      functions of the data-access layer (in each of them the call stands
      before any [try], so that the exception would leave the function);
      it is represented in [setup.create_database]. *)

From Stdlib Require Import String Ascii List ZArith NArith Lia Bool Arith
  Permutation.
Import ListNotations.
Open Scope string_scope.

(** ** Python strings *)

Module Py.

Definition nl : ascii := "010"%char.
Definition NL : string := String nl "".

(** Py_UNICODE_ISSPACE restricted to code points below 256. *)
Definition is_space (c : ascii) : bool :=
  let n := nat_of_ascii c in
  (((9 <=? n) && (n <=? 13)) || ((28 <=? n) && (n <=? 32))
   || (n =? 133) || (n =? 160))%nat.

(** Py_UNICODE_ISDECIMAL restricted to code points below 256. *)
Definition is_digit (c : ascii) : bool :=
  let n := nat_of_ascii c in ((48 <=? n) && (n <=? 57))%nat.

(** [str.lstrip()] *)
Fixpoint lstrip (s : string) : string :=
  match s with
  | String c r => if is_space c then lstrip r else s
  | EmptyString => EmptyString
  end.

(** [str.rstrip()] *)
Fixpoint rstrip (s : string) : string :=
  match s with
  | EmptyString => EmptyString
  | String c r =>
      match rstrip r with
      | EmptyString => if is_space c then EmptyString else String c EmptyString
      | r' => String c r'
      end
  end.

(** [str.strip()] *)
Definition strip (s : string) : string := rstrip (lstrip s).

(** [s.startswith(p)] *)
Fixpoint startswith (p s : string) : bool :=
  match p, s with
  | EmptyString, _ => true
  | String a p', String b s' => Ascii.eqb a b && startswith p' s'
  | String _ _, EmptyString => false
  end.

(** [s.replace(old, new)] for a non-empty [old]: a left-to-right scan that
    replaces each occurrence and resumes after it.  [skip] counts the
    characters of the occurrence still to be passed over. *)
Fixpoint replace_from (old new : string) (skip : nat) (s : string) : string :=
  match s with
  | EmptyString => EmptyString
  | String c r =>
      match skip with
      | S k => replace_from old new k r
      | O =>
          if startswith old s
          then new ++ replace_from old new (String.length old - 1) r
          else String c (replace_from old new 0 r)
      end
  end.

Definition replace (old new s : string) : string := replace_from old new 0 s.

(** Truth value of a string: [bool(s)]. *)
Definition nonempty (s : string) : bool :=
  match s with EmptyString => false | _ => true end.

(** ** The regular expressions of module [re] that the program uses

    A pattern is a sequence of items, each a character class under a
    quantifier.  Matching is the backtracking search of [re]: a greedy
    repetition takes as many characters as it can and gives them back one
    by one while the rest of the pattern fails. *)

Inductive quant := One | Plus | Star.

Definition item : Type := quant * (ascii -> bool).

(** Greedy repetition of a class, then the continuation [k]; the result is
    the number of characters matched. *)
Fixpoint match_star (cls : ascii -> bool) (k : string -> option nat)
         (s : string) : option nat :=
  match s with
  | String c r =>
      if cls c then
        match match_star cls k r with
        | Some n => Some (S n)
        | None => k s
        end
      else k s
  | EmptyString => k s
  end.

(** [pattern.match(s)] anchored at the start of [s]: the length of the
    match, if any. *)
Fixpoint match_items (p : list item) (s : string) : option nat :=
  match p with
  | [] => Some 0
  | (One, cls) :: p' =>
      match s with
      | String c r => if cls c then option_map S (match_items p' r) else None
      | EmptyString => None
      end
  | (Plus, cls) :: p' =>
      match s with
      | String c r =>
          if cls c then option_map S (match_star cls (match_items p') r)
          else None
      | EmptyString => None
      end
  | (Star, cls) :: p' => match_star cls (match_items p') s
  end.

(** [re.split(p, s)] for a pattern that matches no empty string: [cur] is
    the segment being collected, [skip] the characters of the current match
    still to be passed over. *)
Fixpoint split_from (p : list item) (skip : nat) (cur s : string)
  : list string :=
  match s with
  | EmptyString => [cur]
  | String c r =>
      match skip with
      | S k => split_from p k cur r
      | O =>
          match match_items p s with
          | Some (S n) => cur :: split_from p n "" r
          | _ => split_from p 0 (cur ++ String c "") r
          end
      end
  end.

Definition re_split (p : list item) (s : string) : list string :=
  split_from p 0 "" s.

Definition lit (a : ascii) : item := (One, Ascii.eqb a).

(** [sub in s] *)
Fixpoint contains (sub s : string) : bool :=
  startswith sub s ||
  match s with
  | String _ r => contains sub r
  | EmptyString => false
  end.

(** [sep.join(l)] *)
Fixpoint join (sep : string) (l : list string) : string :=
  match l with
  | [] => ""
  | [x] => x
  | x :: r => x ++ sep ++ join sep r
  end.

(** [repr(s)] of a string without quote characters. *)
Definition repr (s : string) : string := "'" ++ s ++ "'".

(** ** Exceptions *)

Inductive exn : Type :=
| ValueError (msg : string)
| KeyError (key_repr : string)
| IndexError (msg : string)
| TypeError (msg : string)
| AttributeError (msg : string)
| ImportError (msg : string)
| OperationalError (msg : string)      (* sqlite3.OperationalError *)
| IntegrityError (msg : string)        (* sqlite3.IntegrityError *)
| ProgrammingError (msg : string)      (* sqlite3.ProgrammingError *)
| OtherException (cls msg : string).   (* any other subclass of Exception *)

(** [str(e)] *)
Definition str_of_exn (e : exn) : string :=
  match e with
  | ValueError m | IndexError m | TypeError m | AttributeError m
  | ImportError m | OperationalError m | IntegrityError m
  | ProgrammingError m => m
  | KeyError k => k
  | OtherException _ m => m
  end.

(** [isinstance(e, sqlite3.Error)] *)
Definition is_sqlite3_Error (e : exn) : bool :=
  match e with
  | OperationalError _ | IntegrityError _ | ProgrammingError _ => true
  | _ => false
  end.

(** [isinstance(e, sqlite3.IntegrityError)] *)
Definition is_IntegrityError (e : exn) : bool :=
  match e with IntegrityError _ => true | _ => false end.

(** [isinstance(e, Exception)]: every represented exception. *)
Definition is_Exception (e : exn) : bool := true.

Inductive result (A : Type) : Type :=
| Ok (a : A)
| Raise (e : exn).
Arguments Ok {A} a.
Arguments Raise {A} e.

Definition rbind {A B : Type} (r : result A) (k : A -> result B) : result B :=
  match r with
  | Ok a => k a
  | Raise e => Raise e
  end.

(** ** Values of unknown shape *)

#[local] Set Warnings "-register-all".
Inductive pyvalue : Type :=
| PyNone
| PyBool (b : bool)
| PyInt (z : Z)
| PyStr (s : string)
| PyList (l : list pyvalue)
| PyDict (d : list (string * pyvalue))
| PyObject (cls : string).
(* The values that a JSON document decodes to, numbers being integers and
   the keys of a dict being strings, and [PyObject cls]: an instance of a
   class that is neither a mapping nor a sequence and has no [get] or
   [strip] attribute.  Tuples, bytes, floats and dicts with keys of
   another type are not represented. *)

Definition type_name (v : pyvalue) : string :=
  match v with
  | PyNone => "NoneType"
  | PyBool _ => "bool"
  | PyInt _ => "int"
  | PyStr _ => "str"
  | PyList _ => "list"
  | PyDict _ => "dict"
  | PyObject cls => cls
  end.

(** [bool(v)] *)
Definition truthy (v : pyvalue) : bool :=
  match v with
  | PyNone => false
  | PyBool b => b
  | PyInt z => negb (Z.eqb z 0)
  | PyStr s => nonempty s
  | PyList l => match l with [] => false | _ => true end
  | PyDict d => match d with [] => false | _ => true end
  | PyObject _ => true
  end.

(** Lookup in a dict with [str] keys (keys are distinct in a dict). *)
Fixpoint lookup {V : Type} (key : string) (d : list (string * V)) : option V :=
  match d with
  | [] => None
  | (k, v) :: r => if String.eqb k key then Some v else lookup key r
  end.

(** [d[key]] *)
Definition getitem {V : Type} (d : list (string * V)) (key : string)
  : result V :=
  match lookup key d with
  | Some v => Ok v
  | None => Raise (KeyError (repr key))
  end.

(** [d.get(key, default)] *)
Definition dict_get {V : Type} (d : list (string * V)) (key : string)
           (default : V) : V :=
  match lookup key d with
  | Some v => v
  | None => default
  end.

(** [len(v)] *)
Definition len (v : pyvalue) : result nat :=
  match v with
  | PyStr s => Ok (String.length s)
  | PyList l => Ok (List.length l)
  | PyDict d => Ok (List.length d)
  | _ => Raise (TypeError ("object of type '" ++ type_name v ++ "' has no len()"))
  end.

(** [v[0]] *)
Definition getitem0 (v : pyvalue) : result pyvalue :=
  match v with
  | PyList (x :: _) => Ok x
  | PyList [] => Raise (IndexError "list index out of range")
  | PyStr (String c _) => Ok (PyStr (String c ""))
  | PyStr EmptyString => Raise (IndexError "string index out of range")
  | PyDict _ => Raise (KeyError "0")
  | _ => Raise (TypeError ("'" ++ type_name v ++ "' object is not subscriptable"))
  end.

(** [v.get(key)] *)
Definition method_get (v : pyvalue) (key : string) : result pyvalue :=
  match v with
  | PyDict d => Ok (dict_get d key PyNone)
  | _ => Raise (AttributeError
                  ("'" ++ type_name v ++ "' object has no attribute 'get'"))
  end.

(** [v.strip()] *)
Definition method_strip (v : pyvalue) : result string :=
  match v with
  | PyStr s => Ok (strip s)
  | _ => Raise (AttributeError
                  ("'" ++ type_name v ++ "' object has no attribute 'strip'"))
  end.

End Py.
Export Py.

Notation "x <-? c ;; k" := (rbind c (fun x => k))
  (at level 61, c at next level, right associativity).

(** ** The record store

    The two tables of [create_database].  A column declared [TEXT] without
    [NOT NULL] holds [None] for SQL NULL.  A table that was never created
    is [None] in the [Store]; [seq] is the AUTOINCREMENT counter of the
    table (the largest id handed out so far); [name_index] says whether
    the index on the name column (idx_moderators_name,
    idx_participants_name) exists. *)

Record moderator : Type := {
  m_id : Z;
  m_name : string;
  m_city : option string;
  m_description : option string;
  m_email : option string;
  m_phone : option string;
  m_expertise : option string;
  m_created_at : string
}.

Record participant : Type := {
  p_id : Z;
  p_name : string;
  p_email : string;
  p_company : option string;
  p_role : option string;
  p_phone : option string;
  p_created_at : string
}.

Record table (R : Type) : Type := {
  rows : list R;
  seq : Z;
  name_index : bool
}.
Arguments rows {R} t.
Arguments seq {R} t.
Arguments name_index {R} t.

Record Store : Type := {
  moderators : option (table moderator);
  participants : option (table participant)
}.

(** What the program writes to standard output, one entry per [print]. *)
Inductive printed : Type :=
| AddedModerator (name : string)       (* "✓ Added moderator: {name}" *)
| AddedParticipant (name : string)     (* "✓ Added participant: {name}" *)
| ParticipantExists (email : string)
    (* "✗ Participant with email {email} already exists!" *)
| DbErrorModerators (e : exn)    (* "Database error fetching moderators: {e}" *)
| DbErrorParticipants (e : exn)
    (* "Database error fetching participants: {e}" *)
| ErrorGeneratingThemes (e : exn)      (* "Error generating themes: {e}" *)
| ErrorRefiningPlan (e : exn)          (* "Error refining event plan: {e}" *)
| ErrorGeneratingPlan (e : exn)        (* "Error generating event plan: {e}" *)
| Line (s : string).                   (* any other line *)

(** The state the program runs in: the database file named by [db_path],
    the connections to it that are open, the next connection handle, the
    standard output, the value of CURRENT_TIMESTAMP, and two facts of the
    SQLite library: its bound on the number of [?] in one statement
    (SQLITE_MAX_VARIABLE_NUMBER, fixed when the library is built: 999
    before SQLite 3.32, 32766 since, 250000 in some distributions), and
    the choice of its query planner, for a filter on a number of names,
    between the index on the name column and a scan of the table (the
    planner weighs the number of names against its estimate of the
    table). *)
Record World : Type := {
  store : Store;
  open_conns : list nat;
  next_conn : nat;
  stdout : list printed;
  now : string;
  max_variable_number : positive;
  index_chosen : nat -> bool
}.

Definition set_store (w : World) (s : Store) : World :=
  {| store := s; open_conns := open_conns w; next_conn := next_conn w;
     stdout := stdout w; now := now w;
     max_variable_number := max_variable_number w;
     index_chosen := index_chosen w |}.

(** ** Computations with state and exceptions *)

Definition M (A : Type) : Type := World -> result A * World.

Definition ret {A : Type} (a : A) : M A := fun w => (Ok a, w).

Definition raise {A : Type} (e : exn) : M A := fun w => (Raise e, w).

Definition bind {A B : Type} (m : M A) (k : A -> M B) : M B :=
  fun w =>
    match m w with
    | (Ok a, w') => k a w'
    | (Raise e, w') => (Raise e, w')
    end.

Definition lift {A : Type} (r : result A) : M A := fun w => (r, w).

Notation "x <- c ;; k" := (bind c (fun x => k))
  (at level 61, c at next level, right associativity).
Notation "c ;;; k" := (bind c (fun _ => k))
  (at level 61, right associativity).

(** [try: body / except E as e: handler e], where [catches] is the test
    [isinstance(e, E)]. *)
Definition try_except {A : Type} (body : M A) (catches : exn -> bool)
           (handler : exn -> M A) : M A :=
  fun w =>
    match body w with
    | (Ok a, w') => (Ok a, w')
    | (Raise e, w') => if catches e then handler e w' else (Raise e, w')
    end.

(** [try: body / finally: fin]: [fin] runs on every exit of [body]. *)
Definition try_finally {A : Type} (body : M A) (fin : M unit) : M A :=
  fun w =>
    match body w with
    | (r, w') =>
        match fin w' with
        | (Ok _, w'') => (r, w'')
        | (Raise e, w'') => (Raise e, w'')
        end
    end.

Definition print (p : printed) : M unit :=
  fun w =>
    (Ok tt, {| store := store w; open_conns := open_conns w;
               next_conn := next_conn w; stdout := (stdout w ++ [p])%list;
               now := now w;
               max_variable_number := max_variable_number w;
     index_chosen := index_chosen w |}).

(** ** sqlite3 *)

Module sqlite3.

(** [sqlite3.connect(db_path)]: a new handle on the database file. *)
Definition connect : M nat :=
  fun w =>
    (Ok (next_conn w),
     {| store := store w; open_conns := next_conn w :: open_conns w;
        next_conn := S (next_conn w); stdout := stdout w; now := now w;
        max_variable_number := max_variable_number w;
     index_chosen := index_chosen w |}).

Definition is_open (conn : nat) (w : World) : bool :=
  existsb (Nat.eqb conn) (open_conns w).

(** [conn.close()] *)
Definition close (conn : nat) : M unit :=
  fun w =>
    (Ok tt,
     {| store := store w;
        open_conns := filter (fun c => negb (Nat.eqb conn c)) (open_conns w);
        next_conn := next_conn w; stdout := stdout w; now := now w;
        max_variable_number := max_variable_number w;
     index_chosen := index_chosen w |}).

(** A statement on a closed connection is refused. *)
Definition with_open {A : Type} (conn : nat) (m : M A) : M A :=
  fun w =>
    if is_open conn w then m w
    else (Raise (ProgrammingError "Cannot operate on a closed database."), w).

(** [conn.commit()] *)
Definition commit (conn : nat) : M unit := with_open conn (ret tt).

(** [LIMIT n]: a negative [n] is no bound. *)
Definition sql_limit {R : Type} (n : Z) (l : list R) : list R :=
  if (n <? 0)%Z then l else firstn (Z.to_nat n) l.

(** A Python int is bound to a [?] as a signed 64-bit integer; outside
    that range the binding raises OverflowError, which is no
    [sqlite3.Error]. *)
Definition fits_int64 (n : Z) : bool :=
  ((- 2 ^ 63 <=? n) && (n <? 2 ^ 63))%Z.
Arguments fits_int64 : simpl never.

Definition int_overflow : exn :=
  OtherException "OverflowError"
                 "Python int too large to convert to SQLite INTEGER".

(** A statement with more [?] than the library allows is refused when it
    is prepared. *)
Definition too_many_variables (n : nat) (w : World) : bool :=
  (N.pos (max_variable_number w) <? N.of_nat n)%N.
Arguments too_many_variables : simpl never.

(** [name IN (?, ..., ?)] bound to [names]. *)
Definition name_in (names : list string) (name : string) : bool :=
  existsb (String.eqb name) names.

(** The order of the index on a name column: by name, compared character
    by character (collation BINARY); rows of one name keep their rowid
    order. *)
Fixpoint insert_by_name {R : Type} (name : R -> string) (x : R) (l : list R)
  : list R :=
  match l with
  | [] => [x]
  | y :: r =>
      if String.leb (name x) (name y) then x :: l
      else y :: insert_by_name name x r
  end.

Fixpoint sort_by_name {R : Type} (name : R -> string) (l : list R) : list R :=
  match l with
  | [] => []
  | x :: r => insert_by_name name x (sort_by_name name r)
  end.

(** The rows that [WHERE name IN (...)] selects, in the order in which
    they are returned: SQLite looks the names up in the index on the name
    column when the table has one and the planner chooses it
    ([by_index]), and scans the table in rowid order otherwise. *)
Definition where_name_in {R : Type} (name : R -> string)
           (names : list string) (by_index : bool) (t : table R) : list R :=
  let found := filter (fun r => name_in names (name r)) (rows t) in
  if name_index t && by_index then sort_by_name name found else found.

(** [SELECT ... FROM moderators [WHERE name IN (...)]], then [fetchall()].
    Without [WHERE] the table is scanned in rowid order.  Preparing the
    statement checks the number of [?] before it looks for the table. *)
Definition select_moderators (conn : nat) (where_names : option (list string))
  : M (list moderator) :=
  with_open conn (fun w =>
    let variables := match where_names with
                     | Some names => List.length names
                     | None => 0
                     end in
    if too_many_variables variables w
    then (Raise (OperationalError "too many SQL variables"), w)
    else
      match moderators (store w) with
      | None => (Raise (OperationalError "no such table: moderators"), w)
      | Some t =>
          (Ok match where_names with
              | Some names =>
                  where_name_in m_name names
                    (index_chosen w (List.length names)) t
              | None => rows t
              end, w)
      end).

(** [SELECT ... FROM participants [WHERE name IN (...)] [LIMIT ?]], then
    [fetchall()].  The statement is prepared (number of [?], then the
    table), the parameters are bound, then the rows are read. *)
Definition select_participants (conn : nat)
           (where_names : option (list string)) (limit : option Z)
  : M (list participant) :=
  with_open conn (fun w =>
    let variables := (match where_names with
                      | Some names => List.length names
                      | None => 0
                      end
                      + match limit with
                        | Some _ => 1
                        | None => 0
                        end)%nat in
    if too_many_variables variables w
    then (Raise (OperationalError "too many SQL variables"), w)
    else
      match participants (store w) with
      | None => (Raise (OperationalError "no such table: participants"), w)
      | Some t =>
          let matching :=
            match where_names with
            | Some names =>
                where_name_in p_name names
                  (index_chosen w (List.length names)) t
            | None => rows t
            end in
          match limit with
          | Some n =>
              if fits_int64 n then (Ok (sql_limit n matching), w)
              else (Raise int_overflow, w)
          | None => (Ok matching, w)
          end
      end).

(** [INSERT INTO moderators (name, city, description, email, phone,
    expertise) VALUES (?, ?, ?, ?, ?, ?)] *)
Definition insert_moderator (conn : nat) (name : string)
           (city description email phone expertise : option string) : M unit :=
  with_open conn (fun w =>
    match moderators (store w) with
    | None => (Raise (OperationalError "no such table: moderators"), w)
    | Some t =>
        let id := (seq t + 1)%Z in
        let r := {| m_id := id; m_name := name; m_city := city;
                    m_description := description; m_email := email;
                    m_phone := phone; m_expertise := expertise;
                    m_created_at := now w |} in
        (Ok tt,
         set_store w
           {| moderators := Some {| rows := (rows t ++ [r])%list; seq := id;
                   name_index := name_index t |};
              participants := participants (store w) |})
    end).

(** [INSERT INTO participants (name, email, company, role, phone) VALUES
    (?, ?, ?, ?, ?)]; the column [email] is [UNIQUE]. *)
Definition insert_participant (conn : nat) (name email : string)
           (company role phone : option string) : M unit :=
  with_open conn (fun w =>
    match participants (store w) with
    | None => (Raise (OperationalError "no such table: participants"), w)
    | Some t =>
        if existsb (fun r => String.eqb (p_email r) email) (rows t)
        then (Raise (IntegrityError
                       "UNIQUE constraint failed: participants.email"), w)
        else
          let id := (seq t + 1)%Z in
          let r := {| p_id := id; p_name := name; p_email := email;
                      p_company := company; p_role := role; p_phone := phone;
                      p_created_at := now w |} in
          (Ok tt,
           set_store w
             {| moderators := moderators (store w);
                participants :=
                  Some {| rows := (rows t ++ [r])%list; seq := id;
                   name_index := name_index t |} |})
    end).

End sqlite3.

(** ** [db_setup.py]

    Every function of the program works on the one database file of the
    [World]; the [db_path] argument that names it is left out. *)

Module db_setup.

Definition add_moderator (name city description email : string)
           (phone expertise : option string) : M unit :=
  conn <- sqlite3.connect ;;
  sqlite3.insert_moderator conn name (Some city) (Some description)
                           (Some email) phone expertise ;;;
  sqlite3.commit conn ;;;
  sqlite3.close conn ;;;
  print (AddedModerator name).

Definition add_participant (name email : string)
           (company role phone : option string) : M unit :=
  conn <- sqlite3.connect ;;
  try_finally
    (try_except
       (sqlite3.insert_participant conn name email company role phone ;;;
        sqlite3.commit conn ;;;
        print (AddedParticipant name))
       is_IntegrityError
       (fun _ => print (ParticipantExists email)))
    (sqlite3.close conn).

End db_setup.

(** ** [event_planning_nemo.py] *)

Record Settings : Type := {
  nim_base_url : string;
  nim_api_key : string;
  model_name : string;
  db_path : string
}.

(** [dict(row)] for the columns selected from [moderators]. *)
Record moderator_info : Type := {
  mi_name : string;
  mi_city : option string;
  mi_description : option string;
  mi_email : option string;
  mi_phone : option string;
  mi_expertise : option string
}.

(** [dict(row)] for the columns selected from [participants]. *)
Record participant_info : Type := {
  pi_name : string;
  pi_email : string;
  pi_company : option string;
  pi_role : option string;
  pi_phone : option string
}.

Definition moderator_dict (r : moderator) : moderator_info :=
  {| mi_name := m_name r; mi_city := m_city r;
     mi_description := m_description r; mi_email := m_email r;
     mi_phone := m_phone r; mi_expertise := m_expertise r |}.

Definition participant_dict (r : participant) : participant_info :=
  {| pi_name := p_name r; pi_email := p_email r; pi_company := p_company r;
     pi_role := p_role r; pi_phone := p_phone r |}.

(** [bool(names)] for an [Optional[List[str]]]. *)
Definition names_given (names : option (list string)) : bool :=
  match names with
  | Some (_ :: _) => true
  | _ => false
  end.

(** [bool(limit)] for an [Optional[int]]. *)
Definition limit_given (limit : option Z) : bool :=
  match limit with
  | Some n => negb (Z.eqb n 0)
  | None => false
  end.

Module DatabaseManager.

Definition get_connection : M nat := sqlite3.connect.

Definition fetch_moderators_from_db (moderator_names : option (list string))
  : M (list moderator_info) :=
  conn <- get_connection ;;
  try_finally
    (try_except
       (rows <- (if names_given moderator_names
                 then sqlite3.select_moderators conn moderator_names
                 else sqlite3.select_moderators conn None) ;;
        ret (map moderator_dict rows))
       is_sqlite3_Error
       (fun e => print (DbErrorModerators e) ;;; ret []))
    (sqlite3.close conn).

Definition fetch_participants_from_db
           (participant_names : option (list string)) (limit : option Z)
  : M (list participant_info) :=
  conn <- get_connection ;;
  try_finally
    (try_except
       (rows <- (if names_given participant_names
                 then sqlite3.select_participants conn participant_names None
                 else
                   if limit_given limit
                   then sqlite3.select_participants conn None limit
                   else sqlite3.select_participants conn None None) ;;
        ret (map participant_dict rows))
       is_sqlite3_Error
       (fun e => print (DbErrorParticipants e) ;;; ret []))
    (sqlite3.close conn).

End DatabaseManager.

Record EventPlanInput : Type := {
  selected_theme : string;
  start_date : string;
  end_date : string;
  start_time : string;
  end_time : string;
  location : string;
  event_type : string;
  input_moderators : list (list (string * string))
}.

(** The heading pattern of [re.split]: two stars, one or more digits, a
    dot, then any run of whitespace. *)
Definition theme_heading : list item :=
  [lit "*"; lit "*"; (Plus, is_digit); lit "."; (Star, is_space)].

(** One segment cleaned: two newlines replaced by one, then [strip()]. *)
Definition clean_theme (theme : string) : string :=
  strip (replace (NL ++ NL) NL theme).

(** Lines 257-260: split on the heading, drop a blank first segment, clean
    the non-empty segments. *)
Definition parse_themes (raw_response : string) : list string :=
  let themes := re_split theme_heading raw_response in
  let themes :=
    match themes with
    | t0 :: rest => if negb (nonempty (strip t0)) then rest else themes
    | [] => themes
    end in
  map clean_theme (filter nonempty themes).

(** The checks between the completion call and [content.strip()], the
    same at each of the four call sites. *)
Definition response_text (response : pyvalue) : result string :=
  match response with
  | PyNone => Raise (ValueError "LLM returned None response")
  | _ =>
      choices <-? match response with
                  | PyDict d => getitem d "choices"
                  | _ => Ok PyNone
                  end ;;
      no_choices <-? (if negb (truthy choices) then Ok true
                      else n <-? len choices ;; Ok (Nat.eqb n 0)) ;;
      if no_choices : bool then Raise (ValueError "LLM response has no choices")
      else
        first <-? getitem0 choices ;;
        message <-? method_get first "message" ;;
        if negb (truthy message)
        then Raise (ValueError "LLM response has no message")
        else
          content <-? method_get message "content" ;;
          if negb (truthy content)
          then Raise (ValueError "LLM response has no content")
          else method_strip content
  end.

(** The five fallback themes of [_generate_themes]. *)
Definition fallback_themes (e : exn) : list string :=
  ["**Event Theme 1**: Unable to generate themes. Please check your LLM configuration.";
   "**Event Theme 2**: Error: " ++ str_of_exn e;
   "**Event Theme 3**: Verify NIM_BASE_URL and NVIDIA_API_KEY are set correctly.";
   "**Event Theme 4**: Ensure your NVIDIA NIM endpoint is running.";
   "**Event Theme 5**: Check network connectivity to the NIM server."].

Definition themes_prompt (event_idea : string) : string :=
  "Generate exactly five professional, creative, and distinct event ideas "
  ++ "with titles and detailed descriptions based on: '" ++ event_idea ++ "'. "
  ++ "Format each theme as a numbered bold title followed by its description".

(** One entry of the moderator sentence. *)
Definition moderator_description (moderator : list (string * string))
  : result string :=
  name <-? getitem moderator "name" ;;
  city <-? getitem moderator "city" ;;
  Ok (name ++ " from " ++ city ++ " with expertise in "
      ++ dict_get moderator "description" "events").

Fixpoint moderator_descriptions (moderators : list (list (string * string)))
  : result (list string) :=
  match moderators with
  | [] => Ok []
  | m :: r =>
      d <-? moderator_description m ;;
      ds <-? moderator_descriptions r ;;
      Ok (d :: ds)
  end.

Definition moderators_str (moderators : list (list (string * string)))
  : result string :=
  ds <-? moderator_descriptions moderators ;;
  Ok (match moderators with
      | [] => "No specific moderators provided."
      | _ => "The moderators for this event are: " ++ join " " ds ++ "."
      end).

Section Completion.

(** The module-level [settings] object. *)
Variable settings : Settings.

(** [litellm.completion(model, messages, api_base, api_key)] with the one
    user message [prompt]: the response, or the exception it raises.
    Arguments in the order model, prompt, api_base, api_key. *)
Variable completion : string -> string -> string -> string -> result pyvalue.

Definition call_completion (prompt : string) : M pyvalue :=
  lift (completion (model_name settings) prompt (nim_base_url settings)
                   (nim_api_key settings)).

(** *** The registered functions *)

Definition _generate_themes (event_idea : string) : M (list string) :=
  let prompt := themes_prompt event_idea in
  try_except
    (response <- call_completion prompt ;;
     raw_response <- lift (response_text response) ;;
     let cleaned_themes := parse_themes raw_response in
     match cleaned_themes with
     | [] => raise (ValueError "Failed to extract themes from LLM response")
     | _ => ret cleaned_themes
     end)
    is_Exception
    (fun e => print (ErrorGeneratingThemes e) ;;; ret (fallback_themes e)).

Definition single_day_prompt (input_data : EventPlanInput)
           (moderators_str : string) : string :=
  "Using the theme: '" ++ selected_theme input_data
  ++ "', provide a detailed descriptive agenda with timings "
  ++ "(from " ++ start_time input_data ++ " to " ++ end_time input_data
  ++ "), location, target audience, and purpose for the event on "
  ++ start_date input_data ++ ". "
  ++ "It is a " ++ event_type input_data ++ " event at "
  ++ location input_data ++ ". "
  ++ moderators_str ++ " "
  ++ "Additionally, draft a professional and concise email invitation content that includes the event title, "
  ++ "date, time, location, and a brief overview to invite participants.".

Definition multi_day_prompt (input_data : EventPlanInput)
           (moderators_str : string) : string :=
  "Using the theme: '" ++ selected_theme input_data
  ++ "', provide a detailed descriptive agenda with timings "
  ++ "(from " ++ start_time input_data ++ " to " ++ end_time input_data
  ++ "), location, target audience, and purpose for the event "
  ++ "from " ++ start_date input_data ++ " to " ++ end_date input_data ++ ". "
  ++ "It is a " ++ event_type input_data ++ " event at "
  ++ location input_data ++ ". "
  ++ moderators_str ++ " "
  ++ "Please make sure to split the agenda across both days ("
  ++ start_date input_data ++ " and " ++ end_date input_data ++ "), "
  ++ "showing a balanced distribution of sessions, breaks, and networking events for both days. "
  ++ "Additionally, draft a professional and concise email invitation content that includes the event title, "
  ++ "date range, daily timings, location, and a brief overview to invite participants.".

(** Lines 299-326: the prompt of [_refine_plan]. *)
Definition refine_prompt (input_data : EventPlanInput) : result string :=
  moderators_str <-? moderators_str (input_moderators input_data) ;;
  Ok (if String.eqb (start_date input_data) (end_date input_data)
      then single_day_prompt input_data moderators_str
      else multi_day_prompt input_data moderators_str).

Definition error_plan (input_data : EventPlanInput) (e : exn) : string :=
  "
# Event Planning Error

**Theme**: " ++ selected_theme input_data ++ "
**Location**: " ++ location input_data ++ "
**Date**: " ++ start_date input_data ++ " to " ++ end_date input_data ++ "
**Time**: " ++ start_time input_data ++ " - " ++ end_time input_data ++ "

## Error Details
Unable to generate event plan due to: " ++ str_of_exn e ++ "

## Troubleshooting
1. Verify NIM_BASE_URL is set correctly: " ++ nim_base_url settings ++ "
2. Check NVIDIA_API_KEY is valid
3. Ensure NVIDIA NIM endpoint is running and accessible
4. Check network connectivity
5. Verify model name: " ++ model_name settings ++ "

Please check your configuration and try again.
".

Definition _refine_plan (input_data : EventPlanInput) : M string :=
  prompt <- lift (refine_prompt input_data) ;;
  try_except
    (response <- call_completion prompt ;;
     refined_plan <- lift (response_text response) ;;
     ret refined_plan)
    is_Exception
    (fun e => print (ErrorRefiningPlan e) ;;; ret (error_plan input_data e)).

Definition _fetch_moderators (moderator_names : option (list string))
  : M (list moderator_info) :=
  DatabaseManager.fetch_moderators_from_db moderator_names.

Definition _fetch_participants (participant_names : option (list string))
           (limit : option Z) : M (list participant_info) :=
  DatabaseManager.fetch_participants_from_db participant_names limit.

End Completion.

(** *** The standalone class [EventPlanningWorkflow] *)

Module EventPlanningWorkflow.

Section Standalone.

Variable settings : Settings.
Variable completion : string -> string -> string -> string -> result pyvalue.

Definition generate_event_themes (event_idea : string) : M (list string) :=
  let prompt := themes_prompt event_idea in
  try_except
    (response <- call_completion settings completion prompt ;;
     raw_response <- lift (response_text response) ;;
     let cleaned_themes := parse_themes raw_response in
     ret (match cleaned_themes with
          | [] => ["Error: Unable to generate themes"]
          | _ => cleaned_themes
          end))
    is_Exception
    (fun e => print (ErrorGeneratingThemes e) ;;;
              ret ["Error generating themes: " ++ str_of_exn e]).

Definition standalone_single_day_prompt (selected_theme : string)
           (start_time end_time start_date event_type location : string)
           (moderators_str : string) : string :=
  "Using the theme: '" ++ selected_theme
  ++ "', provide a detailed descriptive agenda with timings "
  ++ "(from " ++ start_time ++ " to " ++ end_time
  ++ "), location, target audience, and purpose for the event on "
  ++ start_date ++ ". "
  ++ "It is a " ++ event_type ++ " event at " ++ location ++ ". "
  ++ moderators_str ++ " "
  ++ "Additionally, draft a professional and concise email invitation content.".

Definition standalone_multi_day_prompt (selected_theme : string)
           (start_time end_time start_date end_date event_type location : string)
           (moderators_str : string) : string :=
  "Using the theme: '" ++ selected_theme
  ++ "', provide a detailed descriptive agenda with timings "
  ++ "(from " ++ start_time ++ " to " ++ end_time
  ++ "), location, target audience, and purpose for the event "
  ++ "from " ++ start_date ++ " to " ++ end_date ++ ". "
  ++ "It is a " ++ event_type ++ " event at " ++ location ++ ". "
  ++ moderators_str ++ " "
  ++ "Split the agenda across both days. Additionally, draft a professional email invitation.".

(** Lines 496-518: the prompt of [start_event_planning].  The keys of
    [event_details] are read in the order in which the f-string of the
    chosen branch names them. *)
Definition planning_prompt (selected_theme : string)
           (event_details : list (string * string))
           (moderators : list (list (string * string))) : result string :=
  moderators_str <-? moderators_str moderators ;;
  start_date <-? getitem event_details "start_date" ;;
  end_date <-? getitem event_details "end_date" ;;
  if String.eqb start_date end_date then
    start_time <-? getitem event_details "start_time" ;;
    end_time <-? getitem event_details "end_time" ;;
    event_type <-? getitem event_details "event_type" ;;
    location <-? getitem event_details "location" ;;
    Ok (standalone_single_day_prompt selected_theme start_time end_time
          start_date event_type location moderators_str)
  else
    start_time <-? getitem event_details "start_time" ;;
    end_time <-? getitem event_details "end_time" ;;
    event_type <-? getitem event_details "event_type" ;;
    location <-? getitem event_details "location" ;;
    Ok (standalone_multi_day_prompt selected_theme start_time end_time
          start_date end_date event_type location moderators_str).

Definition banner : string :=
  "============================================================".

Fixpoint print_lines (l : list string) : M unit :=
  match l with
  | [] => ret tt
  | x :: r => print (Line x) ;;; print_lines r
  end.

Definition start_event_planning (selected_theme : string)
           (event_details : list (string * string))
           (moderators : list (list (string * string)))
           (participants : option (list (list (string * string))))
  : M string :=
  prompt <- lift (planning_prompt selected_theme event_details moderators) ;;
  plan <- try_except
            (response <- call_completion settings completion prompt ;;
             lift (response_text response))
            is_Exception
            (fun e =>
               print (ErrorGeneratingPlan e) ;;;
               ret ("Error generating plan: " ++ str_of_exn e ++ NL
                    ++ "Please check your LLM configuration.")) ;;
  print_lines [NL ++ banner; "REFINED EVENT PLAN"; banner; plan; banner ++ NL] ;;;
  match participants with
  | Some ((_ :: _) as ps) =>
      print_lines [banner; "EVENT PARTICIPANTS"; banner] ;;;
      print_lines
        (map (fun p => "- " ++ dict_get p "name" "Unknown" ++ " ("
                       ++ dict_get p "email" "N/A" ++ ")") ps) ;;;
      print_lines [banner ++ NL]
  | _ => ret tt
  end ;;;
  ret plan.

End Standalone.

End EventPlanningWorkflow.

(** ** [register.py] and the import of names from a module

    A module is run once, statement by statement, when it is first
    imported; the names its top level has bound are then kept under its
    name in [sys.modules].  [from m import (n1, ..., nk)] first imports
    [m], then looks the names up in order and raises ImportError at the
    first one that [m] does not bind; the importing module then fails to
    load and binds nothing.

    The toolkit's decorator [register_function(config_type=C)] is taken
    to do what the toolkit documents: when the decorated [def] statement
    runs, the function is recorded under [C] in the toolkit's registry,
    and its name is bound.  The imports of the standard library and of
    the installed packages succeed, and the package's own [__init__],
    which is not among the sources, binds nothing. *)

Module register.

(** A statement at the top level of a module, as far as names and the
    registry go. *)
Inductive statement : Type :=
| Binds (name : string)
    (* an import, a class, a def or an assignment that binds [name] *)
| Registers (config_type name : string)
    (* @register_function(config_type=...) async def name(...) *)
| Runs (call : string).
    (* an expression statement *)

(** The top level of [event_planning_nemo.py], in the order of the file
    (the [__main__] block does not run on import). *)
Definition event_planning_nemo_body : list statement :=
  [Binds "re"; Binds "asyncio"; Binds "sqlite3"; Binds "os"; Binds "Dict";
   Binds "List"; Binds "Any"; Binds "Optional"; Binds "Path";
   Binds "BaseModel"; Binds "Field"; Binds "load_dotenv"; Binds "completion";
   Binds "FunctionBaseConfig"; Binds "register_function"; Binds "Builder";
   Binds "FunctionInfo"; Runs "load_dotenv()";
   Binds "Settings"; Binds "settings"; Binds "DatabaseManager";
   Binds "db_manager"; Binds "EventIdeaInput"; Binds "ThemesOutput";
   Binds "EventPlanInput"; Binds "EventPlanOutput"; Binds "ModeratorsInput";
   Binds "ModeratorsOutput"; Binds "ParticipantsInput";
   Binds "ParticipantsOutput"; Binds "HumanPromptTextInput";
   Binds "GenerateEventThemesConfig"; Binds "RefineEventPlanConfig";
   Binds "FetchModeratorsConfig"; Binds "FetchParticipantsConfig";
   Registers "GenerateEventThemesConfig" "generate_event_themes";
   Registers "RefineEventPlanConfig" "refine_event_plan";
   Registers "FetchModeratorsConfig" "fetch_moderators";
   Registers "FetchParticipantsConfig" "fetch_participants";
   Binds "EventPlanningWorkflow"].

(** What the interpreter and the toolkit keep between imports: the
    modules that have run, each with the names it bound, and the
    registry of the toolkit (config type, function). *)
Record Runtime : Type := {
  sys_modules : list (string * list string);
  registry : list (string * string)
}.

Definition exec (st : statement) (namespace : list string)
           (reg : list (string * string))
  : list string * list (string * string) :=
  match st with
  | Binds n => ((namespace ++ [n])%list, reg)
  | Registers c n => ((namespace ++ [n])%list, (reg ++ [(c, n)])%list)
  | Runs _ => (namespace, reg)
  end.

Fixpoint run_body (body : list statement) (namespace : list string)
         (reg : list (string * string))
  : list string * list (string * string) :=
  match body with
  | [] => (namespace, reg)
  | st :: r =>
      let (namespace', reg') := exec st namespace reg in
      run_body r namespace' reg'
  end.

(** [import module_name]: the module runs unless it has run before. *)
Definition import_module (module_name : string) (body : list statement)
           (rt : Runtime) : list string * Runtime :=
  match lookup module_name (sys_modules rt) with
  | Some namespace => (namespace, rt)
  | None =>
      let (namespace, reg) := run_body body [] (registry rt) in
      (namespace,
       {| sys_modules := (sys_modules rt ++ [(module_name, namespace)])%list;
          registry := reg |})
  end.

Definition binds (namespace : list string) (name : string) : bool :=
  existsb (String.eqb name) namespace.

(** The lookup of [from module_name import (names)] in the names the
    module binds: the names bound in the importer.  [module_file] is the
    file the module was loaded from, which the message of the error
    names. *)
Fixpoint import_from (module_name module_file : string)
         (namespace names : list string) : result (list string) :=
  match names with
  | [] => Ok []
  | n :: r =>
      if binds namespace n
      then bound <-? import_from module_name module_file namespace r ;;
           Ok (n :: bound)
      else Raise (ImportError ("cannot import name " ++ repr n ++ " from "
                               ++ repr module_name ++ " (" ++ module_file
                               ++ ")"))
  end.

(** The names [register.py] asks for. *)
Definition imported : list string :=
  ["generate_event_themes"; "refine_event_plan"; "fetch_moderators";
   "fetch_participants"; "ask_user"].

Definition implementation : string := "event_planning_nemo.event_planning_nemo".

Definition this_module : string := "event_planning_nemo.register".

(** Running [register.py]: the names the module binds when it loads. *)
Definition load (module_file : string) (rt : Runtime)
  : result (list string) * Runtime :=
  let (namespace, rt') :=
    import_module implementation event_planning_nemo_body rt in
  match import_from implementation module_file namespace imported with
  | Raise e => (Raise e, rt')
  | Ok bound =>
      let names := (bound ++ ["__all__"])%list in
      (Ok names,
       {| sys_modules := (sys_modules rt' ++ [(this_module, names)])%list;
          registry := registry rt' |})
  end.

(** An interpreter that has imported nothing of the package. *)
Definition fresh : Runtime := {| sys_modules := []; registry := [] |}.

(** The four functions the package documents, with their config types. *)
Definition four_functions : list (string * string) :=
  [("GenerateEventThemesConfig", "generate_event_themes");
   ("RefineEventPlanConfig", "refine_event_plan");
   ("FetchModeratorsConfig", "fetch_moderators");
   ("FetchParticipantsConfig", "fetch_participants")].

End register.

(** ** Vocabulary of the statements *)

(** A response of the shape the program expects, carrying [content]. *)
Definition chat_response (content : string) : pyvalue :=
  PyDict [("choices",
           PyList [PyDict [("message", PyDict [("content", PyStr content)])]])].

(** [n] is among [names]. *)
Definition listed (names : list string) (n : string) : bool :=
  if in_dec string_dec n names then true else false.

(** Every open handle was handed out by [sqlite3.connect]. *)
Definition handles_fresh (w : World) : Prop :=
  Forall (fun c => c < next_conn w) (open_conns w).

(** Two rows of [seed_sample_data] in a created database. *)
Definition alice : participant :=
  {| p_id := 1; p_name := "Alice Smith"; p_email := "alice.smith@techcorp.com";
     p_company := Some "TechCorp"; p_role := Some "Software Engineer";
     p_phone := Some "+1-555-0101"; p_created_at := "2025-01-24 11:00:00" |}.

Definition bob : participant :=
  {| p_id := 2; p_name := "Bob Johnson"; p_email := "bob.johnson@innovate.com";
     p_company := Some "Innovate Inc"; p_role := Some "Product Manager";
     p_phone := Some "+1-555-0102"; p_created_at := "2025-01-24 11:00:00" |}.

Definition jai : moderator :=
  {| m_id := 1; m_name := "Jai Kumar"; m_city := Some "Hyderabad";
     m_description :=
       Some "Experienced technical event moderator with 10+ years";
     m_email := Some "jai.kumar@example.com"; m_phone := Some "+91-9876543210";
     m_expertise := Some "Technical, AI/ML, Cloud Computing";
     m_created_at := "2025-01-24 11:00:00" |}.

Definition seeded_store : Store :=
  {| moderators := Some {| rows := [jai]; seq := 1; name_index := true |};
     participants := Some {| rows := [alice; bob]; seq := 2; name_index := true |} |}.

Definition seeded_world : World :=
  {| store := seeded_store; open_conns := []; next_conn := 0; stdout := [];
     now := "2025-01-25 09:00:00"; max_variable_number := 250000;
     index_chosen := fun _ => true |}.

(** A database file on which [create_database] never ran. *)
Definition fresh_world : World :=
  {| store := {| moderators := None; participants := None |};
     open_conns := []; next_conn := 0; stdout := [];
     now := "2025-01-25 09:00:00"; max_variable_number := 250000;
     index_chosen := fun _ => true |}.

Definition local_settings : Settings :=
  {| nim_base_url := "http://localhost:8202"; nim_api_key := "";
     model_name := "meta/llama3.1-8b-instruct";
     db_path := "event_planning.db" |}.

(** ** The data-access layer *)

Lemma name_in_listed names n : sqlite3.name_in names n = listed names n.
Proof.
  unfold sqlite3.name_in, listed.
  destruct (in_dec string_dec n names) as [Hin | Hout].
  - apply existsb_exists. exists n. split; [exact Hin | apply String.eqb_refl].
  - destruct (existsb (String.eqb n) names) eqn:E; [| reflexivity].
    apply existsb_exists in E. destruct E as [x [Hx Heq]].
    apply String.eqb_eq in Heq. subst x. contradiction.
Qed.

Lemma listed_In names n : listed names n = true <-> In n names.
Proof.
  unfold listed. destruct (in_dec string_dec n names); split;
    intros; try assumption; try reflexivity; try discriminate; contradiction.
Qed.

Lemma filter_name_in {R : Type} (f : R -> string) names (l : list R) :
  filter (fun r => sqlite3.name_in names (f r)) l
  = filter (fun r => listed names (f r)) l.
Proof.
  apply filter_ext. intro r. apply name_in_listed.
Qed.

(** The handle that [connect] hands out is open right after. *)
Lemma is_open_after_connect w :
  sqlite3.is_open (next_conn w) (snd (sqlite3.connect w)) = true.
Proof.
  unfold sqlite3.is_open, sqlite3.connect. simpl.
  rewrite Nat.eqb_refl. reflexivity.
Qed.

Lemma close_other (l : list nat) (n : nat) :
  Forall (fun c => c < n) l ->
  filter (fun c => negb (Nat.eqb n c)) l = l.
Proof.
  intro H. induction H as [| c l Hc Hl IH]; simpl.
  - reflexivity.
  - destruct (Nat.eqb n c) eqn:E.
    + apply Nat.eqb_eq in E. lia.
    + simpl. now rewrite IH.
Qed.

Lemma close_after_connect (l : list nat) (n : nat) :
  Forall (fun c => c < n) l ->
  filter (fun c => negb (Nat.eqb n c)) (n :: l) = l.
Proof.
  intro H. simpl. rewrite Nat.eqb_refl. simpl. now apply close_other.
Qed.

Ltac closed_again H :=
  first [ apply (close_after_connect _ _ H) | apply (close_other _ _ H) ].

Lemma insert_by_name_permutation {R : Type} (name : R -> string) x (l : list R) :
  Permutation (sqlite3.insert_by_name name x l) (x :: l).
Proof.
  induction l as [| y l IH]; cbn [sqlite3.insert_by_name].
  - apply Permutation_refl.
  - destruct (String.leb (name x) (name y)); [apply Permutation_refl |].
    eapply perm_trans; [apply perm_skip, IH | apply perm_swap].
Qed.

Lemma sort_by_name_permutation {R : Type} (name : R -> string) (l : list R) :
  Permutation (sqlite3.sort_by_name name l) l.
Proof.
  induction l as [| x l IH]; cbn [sqlite3.sort_by_name].
  - apply perm_nil.
  - eapply perm_trans; [apply insert_by_name_permutation |].
    now apply perm_skip.
Qed.

(** The rows selected by name are the rows whose name is listed, each as
    often as stored, whatever the order. *)
Lemma where_name_in_permutation {R : Type} (name : R -> string) names
      (by_index : bool) (t : table R) :
  Permutation (sqlite3.where_name_in name names by_index t)
              (filter (fun r => listed names (name r)) (rows t)).
Proof.
  unfold sqlite3.where_name_in. rewrite (filter_name_in name names).
  destruct (name_index t && by_index);
    [apply sort_by_name_permutation | apply Permutation_refl].
Qed.

(** One [?] is never too many. *)
Lemma one_variable_fits (w : World) : sqlite3.too_many_variables 1 w = false.
Proof.
  unfold sqlite3.too_many_variables. apply N.ltb_ge. lia.
Qed.

Ltac engine_cases :=
  repeat match goal with
         | |- context [sqlite3.too_many_variables ?n ?w] =>
             destruct (sqlite3.too_many_variables n w); simpl
         | |- context [sqlite3.fits_int64 ?n] =>
             destruct (sqlite3.fits_int64 n); simpl
         end.

Ltac run_db :=
  unfold DatabaseManager.fetch_moderators_from_db,
    DatabaseManager.fetch_participants_from_db, db_setup.add_participant,
    db_setup.add_moderator, DatabaseManager.get_connection, bind,
    try_finally, try_except, sqlite3.select_moderators,
    sqlite3.select_participants, sqlite3.insert_participant,
    sqlite3.insert_moderator, sqlite3.commit, sqlite3.with_open,
    sqlite3.is_open, sqlite3.connect, sqlite3.close, print, ret;
  simpl; rewrite ?Nat.eqb_refl; simpl.

(** C5 -- [fetch_moderators_from_db] with an empty list of names does what
    it does with no names: both calls end in the same result and state,
    and on a created database that result is every moderator row. *)
Theorem fetch_moderators_empty_names_is_unfiltered (w : World) :
  DatabaseManager.fetch_moderators_from_db (Some []) w
  = DatabaseManager.fetch_moderators_from_db None w
  /\ forall t, moderators (store w) = Some t ->
       fst (DatabaseManager.fetch_moderators_from_db (Some []) w)
       = Ok (map moderator_dict (rows t)).
Proof.
  split.
  - reflexivity.
  - intros t Ht. run_db. rewrite Ht. reflexivity.
Qed.

Lemma fetch_moderators_empty_names_witness :
  DatabaseManager.fetch_moderators_from_db (Some []) seeded_world
  = DatabaseManager.fetch_moderators_from_db None seeded_world
  /\ fst (DatabaseManager.fetch_moderators_from_db (Some []) seeded_world)
     = Ok [moderator_dict jai].
Proof.
  destruct (fetch_moderators_empty_names_is_unfiltered seeded_world)
    as [Hsame Hall].
  split.
  - exact Hsame.
  - apply (Hall {| rows := [jai]; seq := 1; name_index := true |}). reflexivity.
Defined.

(** A list of 250001 names, each the name of a stored participant. *)
Definition many_names : list string :=
  "Alice Smith" :: repeat "Alice Smith" (N.to_nat 250000).

Ltac bound_db :=
  unfold sqlite3.too_many_variables in *;
  cbn [max_variable_number List.length] in *; rewrite ?Nat.add_0_r in *.




Lemma many_names_too_many :
  sqlite3.too_many_variables (List.length many_names) seeded_world = true.
Proof.
  unfold many_names, sqlite3.too_many_variables.
  cbn [List.length max_variable_number seeded_world].
  rewrite repeat_length, Nat2N.inj_succ, N2Nat.id. reflexivity.
Qed.


(** C9 -- without a filter on names, a limit of 0 is no limit: the call
    ends in the same result and state as the call without a limit, and on
    a created database the result is every participant row. *)
Theorem fetch_participants_limit_zero_is_unlimited
        (names : option (list string)) (w : World) :
  names = None \/ names = Some [] ->
  DatabaseManager.fetch_participants_from_db names (Some 0%Z) w
  = DatabaseManager.fetch_participants_from_db names None w
  /\ forall t, participants (store w) = Some t ->
       fst (DatabaseManager.fetch_participants_from_db names (Some 0%Z) w)
       = Ok (map participant_dict (rows t)).
Proof.
  intros [-> | ->]; (split; [reflexivity |]);
    intros t Ht; run_db; rewrite Ht; reflexivity.
Qed.

Lemma fetch_participants_limit_zero_witness :
  DatabaseManager.fetch_participants_from_db None (Some 0%Z) seeded_world
  = DatabaseManager.fetch_participants_from_db None None seeded_world
  /\ fst (DatabaseManager.fetch_participants_from_db
            None (Some 0%Z) seeded_world)
     = Ok [participant_dict alice; participant_dict bob].
Proof.
  destruct (fetch_participants_limit_zero_is_unlimited None seeded_world)
    as [Hsame Hall]; [left; reflexivity |].
  split.
  - exact Hsame.
  - apply (Hall {| rows := [alice; bob]; seq := 2; name_index := true |}). reflexivity.
Defined.

(** A positive limit without names does bound the result. *)
Example fetch_participants_limit_one :
  fst (DatabaseManager.fetch_participants_from_db None (Some 1%Z) seeded_world)
  = Ok [participant_dict alice].
Proof. reflexivity. Qed.

Lemma email_taken (email : string) (l : list participant) :
  (exists r, In r l /\ p_email r = email) ->
  existsb (fun r => String.eqb (p_email r) email) l = true.
Proof.
  intros [r [Hin Heq]]. apply existsb_exists. exists r.
  split; [exact Hin | now apply String.eqb_eq].
Qed.



(** After the refused insert the database takes further inserts. *)
Example add_participant_after_duplicate :
  let w1 := snd (db_setup.add_participant "Alice S."
                   "alice.smith@techcorp.com" None None None seeded_world) in
  let w2 := snd (db_setup.add_participant "Carol White"
                   "carol.white@datalytics.com" (Some "DataLytics")
                   (Some "Data Scientist") (Some "+1-555-0103") w1) in
  option_map (fun t => map p_name (rows t)) (participants (store w2))
  = Some ["Alice Smith"; "Bob Johnson"; "Carol White"].
Proof. reflexivity. Qed.

(** ** Connections *)

Lemma fetch_moderators_releases (names : option (list string)) (w : World) :
  handles_fresh w ->
  open_conns (snd (DatabaseManager.fetch_moderators_from_db names w))
  = open_conns w.
Proof.
  intro Hw. run_db.
  destruct (names_given names); simpl; engine_cases;
    destruct (moderators (store w)) as [t |]; simpl;
    rewrite ?Nat.eqb_refl; simpl; closed_again Hw.
Qed.

Lemma fetch_participants_releases
      (names : option (list string)) (limit : option Z) (w : World) :
  handles_fresh w ->
  open_conns (snd (DatabaseManager.fetch_participants_from_db names limit w))
  = open_conns w.
Proof.
  intro Hw. run_db.
  destruct (names_given names); destruct (limit_given limit); simpl;
    engine_cases;
    destruct (participants (store w)) as [t |]; simpl;
    try (destruct limit as [n |]; simpl); engine_cases;
    rewrite ?Nat.eqb_refl; simpl; closed_again Hw.
Qed.

Lemma add_participant_releases
      (name email : string) (company role phone : option string) (w : World) :
  handles_fresh w ->
  open_conns (snd (db_setup.add_participant name email company role phone w))
  = open_conns w.
Proof.
  intro Hw. run_db.
  destruct (participants (store w)) as [t |]; simpl.
  - destruct (existsb _ (rows t)); simpl;
      rewrite ?Nat.eqb_refl; simpl; closed_again Hw.
  - rewrite ?Nat.eqb_refl. simpl. closed_again Hw.
Qed.

(** [add_moderator] closes its connection when the insert goes through. *)
Lemma add_moderator_releases_on_success
      (name city description email : string) (phone expertise : option string)
      (w : World) (t : table moderator) :
  handles_fresh w ->
  moderators (store w) = Some t ->
  fst (db_setup.add_moderator name city description email phone expertise w)
  = Ok tt
  /\ open_conns
       (snd (db_setup.add_moderator name city description email phone
               expertise w))
     = open_conns w.
Proof.
  intros Hw Ht. run_db. rewrite Ht. simpl. rewrite ?Nat.eqb_refl. simpl.
  split; [reflexivity | closed_again Hw].
Qed.

(** When the insert raises, [add_moderator] passes the exception on with
    its connection still open. *)
Lemma add_moderator_leak
      (name city description email : string) (phone expertise : option string)
      (w : World) :
  moderators (store w) = None ->
  fst (db_setup.add_moderator name city description email phone expertise w)
  = Raise (OperationalError "no such table: moderators")
  /\ open_conns
       (snd (db_setup.add_moderator name city description email phone
               expertise w))
     = next_conn w :: open_conns w.
Proof.
  intro Ht. run_db. rewrite Ht. simpl. split; reflexivity.
Qed.

(** C8 -- the three operations with a [finally] clause close their
    connection on every exit; [add_moderator] has none.  On a database
    file without the moderators table its insert raises, the exception
    leaves the function, and the connection it opened (handle 0) stays
    open.  [add_participant] on the same file raises too, with its
    connection closed. *)
Theorem add_moderator_leaves_connection_open :
  let after :=
    db_setup.add_moderator "Jai Kumar" "Hyderabad"
      "Experienced technical event moderator with 10+ years"
      "jai.kumar@example.com" (Some "+91-9876543210") None fresh_world in
  fst after = Raise (OperationalError "no such table: moderators")
  /\ open_conns fresh_world = []
  /\ open_conns (snd after) = [0]
  /\ open_conns
       (snd (db_setup.add_participant "Alice Smith" "alice.smith@techcorp.com"
               None None None fresh_world)) = [].
Proof.
  repeat split; reflexivity.
Qed.

(** ** Theme generation *)

(** The ways the attempt inside [try] fails, for the outcome of the
    completion call: the call raises; the response does not pass the
    checks (not a dict, no choices, no message, empty or missing content,
    content of another type); the text holds no theme. *)
Inductive generation_failure (outcome : result pyvalue) : exn -> Prop :=
| call_raised (e : exn) :
    outcome = Raise e -> generation_failure outcome e
| response_rejected (response : pyvalue) (e : exn) :
    outcome = Ok response ->
    response_text response = Raise e ->
    generation_failure outcome e
| no_theme_parsed (response : pyvalue) (raw_response : string) :
    outcome = Ok response ->
    response_text response = Ok raw_response ->
    parse_themes raw_response = [] ->
    generation_failure outcome
      (ValueError "Failed to extract themes from LLM response").

(** The completion call returned a response whose text holds no theme. *)
Definition holds_no_theme (outcome : result pyvalue) : Prop :=
  exists response raw_response,
    outcome = Ok response
    /\ response_text response = Ok raw_response
    /\ parse_themes raw_response = [].

Definition two_titles : string :=
  "**1. Title A**" ++ NL ++ "Desc A" ++ NL ++ "**2. Title B**" ++ NL
  ++ "Desc B".

(** A completion service that answers every call with [content]. *)
Definition answers (content : string)
  : string -> string -> string -> string -> result pyvalue :=
  fun _ _ _ _ => Ok (chat_response content).

(** A completion service that is down. *)
Definition times_out : string -> string -> string -> string -> result pyvalue :=
  fun _ _ _ _ => Raise (OtherException "Timeout" "Request timed out.").

(** C4 -- the response body with the two headings "**1. " and "**2. " is
    split into the two themes "Title A**\nDesc A" and "Title B**\nDesc B":
    only the heading is removed, the empty first segment is dropped, each
    segment is trimmed.  Both entry points return that list. *)
Theorem parse_two_titles :
  re_split theme_heading two_titles
  = [""; "Title A**" ++ NL ++ "Desc A" ++ NL; "Title B**" ++ NL ++ "Desc B"]
  /\ parse_themes two_titles
     = ["Title A**" ++ NL ++ "Desc A"; "Title B**" ++ NL ++ "Desc B"]
  /\ (forall settings idea w,
        _generate_themes settings (answers two_titles) idea w
        = (Ok ["Title A**" ++ NL ++ "Desc A"; "Title B**" ++ NL ++ "Desc B"],
           w))
  /\ (forall settings idea w,
        EventPlanningWorkflow.generate_event_themes
          settings (answers two_titles) idea w
        = (Ok ["Title A**" ++ NL ++ "Desc A"; "Title B**" ++ NL ++ "Desc B"],
           w)).
Proof.
  repeat split; intros; reflexivity.
Qed.

Ltac run_llm :=
  unfold _generate_themes, EventPlanningWorkflow.generate_event_themes,
    _refine_plan, try_except, bind, call_completion, lift, raise, ret, print,
    is_Exception; simpl.

(** C1 (as amended) -- whenever the attempt fails, the registered
    function returns, without an exception, the five fallback strings for
    the failure; the standalone method returns, without an exception, a
    list of one string: "Error: Unable to generate themes" when the
    response holds no theme, and the error text behind "Error generating
    themes: " when the call raised or the response was rejected. *)
Theorem theme_generation_degrades
        (settings : Settings)
        (completion : string -> string -> string -> string -> result pyvalue)
        (event_idea : string) (w : World) (e : exn) :
  let outcome :=
    completion (model_name settings) (themes_prompt event_idea)
               (nim_base_url settings) (nim_api_key settings) in
  generation_failure outcome e ->
  fst (_generate_themes settings completion event_idea w)
  = Ok (fallback_themes e)
  /\ List.length (fallback_themes e) = 5
  /\ (holds_no_theme outcome ->
      fst (EventPlanningWorkflow.generate_event_themes
             settings completion event_idea w)
      = Ok ["Error: Unable to generate themes"])
  /\ (~ holds_no_theme outcome ->
      fst (EventPlanningWorkflow.generate_event_themes
             settings completion event_idea w)
      = Ok ["Error generating themes: " ++ str_of_exn e]).
Proof.
  intros outcome Hfail. subst outcome.
  split; [| split; [reflexivity | split]].
  - destruct Hfail as [e Hcall | response e Hcall Hresp
                       | response raw Hcall Hresp Hparse];
      run_llm; rewrite Hcall; simpl; try reflexivity;
      rewrite Hresp; simpl; try reflexivity.
    rewrite Hparse. reflexivity.
  - intros [response [raw [Hcall [Hresp Hparse]]]].
    run_llm. rewrite Hcall. simpl. rewrite Hresp. simpl. rewrite Hparse.
    reflexivity.
  - intro Hsome.
    destruct Hfail as [e Hcall | response e Hcall Hresp
                       | response raw Hcall Hresp Hparse].
    + run_llm. rewrite Hcall. reflexivity.
    + run_llm. rewrite Hcall. simpl. rewrite Hresp. reflexivity.
    + exfalso. apply Hsome. now exists response, raw.
Qed.

Lemma theme_generation_degrades_witness :
  (fst (_generate_themes local_settings (answers "") "pickle ball event"
          fresh_world)
   = Ok (fallback_themes (ValueError "LLM response has no content"))
   /\ fst (EventPlanningWorkflow.generate_event_themes local_settings
             (answers "") "pickle ball event" fresh_world)
      = Ok ["Error generating themes: LLM response has no content"])
  /\ fst (EventPlanningWorkflow.generate_event_themes local_settings
            (answers " ") "pickle ball event" fresh_world)
     = Ok ["Error: Unable to generate themes"].
Proof.
  split.
  - destruct (theme_generation_degrades local_settings (answers "")
                "pickle ball event" fresh_world
                (ValueError "LLM response has no content"))
      as [Hfive [_ [_ Hone]]].
    + apply (response_rejected _ (chat_response "")); reflexivity.
    + split; [exact Hfive |]. apply Hone.
      intros [response [raw [Hcall [Hresp _]]]].
      inversion Hcall; subst response. discriminate Hresp.
  - destruct (theme_generation_degrades local_settings (answers " ")
                "pickle ball event" fresh_world
                (ValueError "Failed to extract themes from LLM response"))
      as [_ [_ [Hnone _]]].
    + apply (no_theme_parsed _ (chat_response " ") ""); reflexivity.
    + apply Hnone. exists (chat_response " "), "". repeat split.
Defined.

(** C1 (as stated) fails for the standalone method: with the completion
    service down it returns one string, not five. *)
Lemma standalone_fallback_is_one_string :
  generation_failure
    (times_out (model_name local_settings) (themes_prompt "pickle ball event")
               (nim_base_url local_settings) (nim_api_key local_settings))
    (OtherException "Timeout" "Request timed out.")
  /\ fst (EventPlanningWorkflow.generate_event_themes local_settings times_out
            "pickle ball event" fresh_world)
     = Ok ["Error generating themes: Request timed out."]
  /\ ~ (exists themes,
          fst (EventPlanningWorkflow.generate_event_themes local_settings
                 times_out "pickle ball event" fresh_world) = Ok themes
          /\ List.length themes = 5).
Proof.
  split; [apply call_raised; reflexivity |].
  split; [reflexivity |].
  intros [themes [Hthemes Hlen]].
  vm_compute in Hthemes. inversion Hthemes; subst themes. discriminate.
Qed.

(** The failures named one by one, on the registered function. *)
Example empty_content_is_rejected :
  response_text (chat_response "")
  = Raise (ValueError "LLM response has no content").
Proof. reflexivity. Qed.

Example object_response_is_rejected :
  response_text (PyObject "ModelResponse")
  = Raise (ValueError "LLM response has no choices").
Proof. reflexivity. Qed.

Example blank_content_has_no_theme :
  response_text (chat_response " ") = Ok "" /\ parse_themes "" = [].
Proof. split; reflexivity. Qed.

(** ** The registration module *)

Lemma lookup_app {V : Type} (key : string) (a b : list (string * V)) :
  lookup key (a ++ b)%list
  = match lookup key a with
    | Some v => Some v
    | None => lookup key b
    end.
Proof.
  induction a as [| [k v] a IH]; [reflexivity |].
  cbn [app lookup]. destruct (String.eqb k key); [reflexivity | exact IH].
Qed.

Definition module_file_on_disk : string :=
  "/app/src/event_planning_nemo/event_planning_nemo.py".

(** The names that the top level of the implementation module binds. *)
Definition event_planning_nemo_names : list string :=
  fst (register.run_body register.event_planning_nemo_body [] []).

Definition ask_user_missing (module_file : string) : exn :=
  ImportError
    ("cannot import name 'ask_user' from 'event_planning_nemo.event_planning_nemo' ("
     ++ module_file ++ ")").

Lemma load_first (module_file : string) (rt : register.Runtime) :
  lookup register.implementation (register.sys_modules rt) = None ->
  register.load module_file rt
  = (Raise (ask_user_missing module_file),
     {| register.sys_modules :=
          (register.sys_modules rt
           ++ [(register.implementation, event_planning_nemo_names)])%list;
        register.registry :=
          (register.registry rt ++ register.four_functions)%list |}).
Proof.
  intro Hnew. unfold register.load, register.import_module. rewrite Hnew.
  cbn [register.run_body register.event_planning_nemo_body register.exec app
       fst snd register.import_from register.imported register.binds existsb
       String.eqb Ascii.eqb Bool.eqb orb rbind register.sys_modules
       register.registry].
  unfold register.four_functions. rewrite <- !app_assoc. reflexivity.
Qed.

Lemma load_again (module_file : string) (rt : register.Runtime) :
  lookup register.implementation (register.sys_modules rt)
  = Some event_planning_nemo_names ->
  register.load module_file rt = (Raise (ask_user_missing module_file), rt).
Proof.
  intro Hold. unfold register.load, register.import_module. rewrite Hold.
  reflexivity.
Qed.

(** C10 (as amended) -- in an interpreter that has not imported the
    implementation module, loading [register.py] raises ImportError at
    [ask_user], which the implementation module does not bind, and
    [register.py] itself binds nothing and is not kept as a module.  But
    the implementation module has run by then, it is kept with the four
    functions among its names, and its four decorators have added the
    four functions to the registry of the toolkit. *)
Theorem register_import_fails (module_file : string) (rt : register.Runtime) :
  lookup register.implementation (register.sys_modules rt) = None ->
  let after := register.load module_file rt in
  fst after
  = Raise (ImportError
             ("cannot import name 'ask_user' from 'event_planning_nemo.event_planning_nemo' ("
              ++ module_file ++ ")"))
  /\ lookup register.this_module (register.sys_modules (snd after))
     = lookup register.this_module (register.sys_modules rt)
  /\ (exists namespace,
        lookup register.implementation (register.sys_modules (snd after))
        = Some namespace
        /\ register.binds namespace "ask_user" = false
        /\ forallb (register.binds namespace)
             ["generate_event_themes"; "refine_event_plan";
              "fetch_moderators"; "fetch_participants"] = true)
  /\ register.registry (snd after)
     = (register.registry rt ++ register.four_functions)%list.
Proof.
  intros Hnew after. subst after. rewrite (load_first module_file rt Hnew).
  cbn [fst snd register.sys_modules register.registry].
  split; [reflexivity |]. split; [| split; [| reflexivity]].
  - rewrite lookup_app. destruct (lookup register.this_module _);
      reflexivity.
  - exists event_planning_nemo_names. split.
    + rewrite lookup_app, Hnew. cbn [lookup].
      now rewrite String.eqb_refl.
    + split; reflexivity.
Qed.

Lemma register_import_fails_witness :
  fst (register.load module_file_on_disk register.fresh)
  = Raise (ImportError
             "cannot import name 'ask_user' from 'event_planning_nemo.event_planning_nemo' (/app/src/event_planning_nemo/event_planning_nemo.py)")
  /\ lookup register.this_module
       (register.sys_modules
          (snd (register.load module_file_on_disk register.fresh))) = None.
Proof.
  destruct (register_import_fails module_file_on_disk register.fresh eq_refl)
    as [Hraise [Hmodule _]].
  split; [exact Hraise | exact Hmodule].
Defined.

(** C10 (as stated) fails in its last part: when the import of
    [register.py] raises, the four functions are in the registry of the
    toolkit, put there by the import that [register.py] started. *)
Lemma register_import_registers_four :
  (exists e, fst (register.load module_file_on_disk register.fresh) = Raise e)
  /\ map snd (register.registry
                (snd (register.load module_file_on_disk register.fresh)))
     = ["generate_event_themes"; "refine_event_plan"; "fetch_moderators";
        "fetch_participants"]
  /\ ~ (forall name,
          In name ["generate_event_themes"; "refine_event_plan";
                   "fetch_moderators"; "fetch_participants"] ->
          ~ In name
              (map snd (register.registry
                          (snd (register.load module_file_on_disk
                                  register.fresh))))).
Proof.
  split; [eexists; reflexivity |]. split; [reflexivity |].
  intro Hnone. apply (Hnone "fetch_moderators"); vm_compute; tauto.
Qed.

(** Once the implementation module has run, loading [register.py] again
    raises the same error and registers nothing more. *)
Lemma register_import_fails_again (module_file : string)
      (rt : register.Runtime) :
  let once := snd (register.load module_file rt) in
  lookup register.implementation (register.sys_modules rt) = None ->
  register.load module_file once = (fst (register.load module_file rt), once).
Proof.
  intros once Hnew. subst once. rewrite (load_first module_file rt Hnew).
  cbn [fst snd]. apply load_again. cbn [register.sys_modules].
  rewrite lookup_app, Hnew. cbn [lookup]. now rewrite String.eqb_refl.
Qed.

(** ** Cleaning a theme segment *)

(** The number of newlines that [s] starts with. *)
Fixpoint leading_newlines (s : string) : nat :=
  match s with
  | String c r => if Ascii.eqb c nl then S (leading_newlines r) else 0
  | EmptyString => 0
  end.

(** The longest run of consecutive newlines in [s]. *)
Fixpoint max_newline_run (s : string) : nat :=
  match s with
  | String c r => Nat.max (leading_newlines s) (max_newline_run r)
  | EmptyString => 0
  end.

(** The longest run of consecutive empty lines in [s]: a run of [k + 1]
    newlines encloses [k] empty lines. *)
Definition max_blank_lines (s : string) : nat := pred (max_newline_run s).

Definition first_char (s : string) : option ascii :=
  match s with
  | String c _ => Some c
  | EmptyString => None
  end.

Fixpoint last_char (s : string) : option ascii :=
  match s with
  | EmptyString => None
  | String c r =>
      match r with
      | EmptyString => Some c
      | _ => last_char r
      end
  end.

Definition not_space (o : option ascii) : bool :=
  match o with
  | Some c => negb (is_space c)
  | None => true
  end.

(** [s] neither starts nor ends with whitespace. *)
Definition trimmed (s : string) : bool :=
  not_space (first_char s) && not_space (last_char s).

Definition five_newlines : string :=
  "a" ++ NL ++ NL ++ NL ++ NL ++ NL ++ "b".

(** A run of [n] newlines. *)
Fixpoint newlines (n : nat) : string :=
  match n with
  | 0 => EmptyString
  | S k => String nl (newlines k)
  end.

(** [s] is made of whitespace only. *)
Fixpoint all_space (s : string) : bool :=
  match s with
  | EmptyString => true
  | String c r => is_space c && all_space r
  end.

Lemma max_newline_run_cons c r :
  max_newline_run (String c r)
  = Nat.max (leading_newlines (String c r)) (max_newline_run r).
Proof. reflexivity. Qed.

Lemma leading_le_max s : leading_newlines s <= max_newline_run s.
Proof.
  destruct s as [| c r]; [apply Nat.le_refl |].
  rewrite max_newline_run_cons. apply Nat.le_max_l.
Qed.

Lemma space_not_newline c : is_space c = false -> Ascii.eqb c nl = false.
Proof.
  intro H. destruct (Ascii.eqb c nl) eqn:E; [| reflexivity].
  apply Ascii.eqb_eq in E. subst c. discriminate H.
Qed.

Lemma replace_pair r :
  replace (NL ++ NL) NL (String nl (String nl r))
  = String nl (replace (NL ++ NL) NL r).
Proof. reflexivity. Qed.

Lemma replace_single c r :
  startswith (NL ++ NL) (String c r) = false ->
  replace (NL ++ NL) NL (String c r) = String c (replace (NL ++ NL) NL r).
Proof.
  intro H. unfold replace. cbn [replace_from]. rewrite H. reflexivity.
Qed.

Lemma startswith_pair c r :
  startswith (NL ++ NL) (String c r)
  = Ascii.eqb nl c
    && match r with
       | String c' _ => Ascii.eqb nl c'
       | EmptyString => false
       end.
Proof.
  unfold NL. cbn [append startswith].
  destruct r as [| c' r']; [reflexivity |].
  now rewrite andb_true_r.
Qed.

(** A newline followed by a newline, or anything else. *)
Lemma pair_or_single s :
  (exists r, s = String nl (String nl r))
  \/ (exists c r, s = String c r
        /\ startswith (NL ++ NL) s = false
        /\ (Ascii.eqb c nl = false \/ leading_newlines r = 0))
  \/ s = EmptyString.
Proof.
  destruct s as [| c r]; [right; right; reflexivity |].
  destruct (Ascii.eqb c nl) eqn:Ec.
  - apply Ascii.eqb_eq in Ec. subst c.
    destruct r as [| c' r'].
    + right; left. exists nl, EmptyString. repeat split. right. reflexivity.
    + destruct (Ascii.eqb c' nl) eqn:Ec'.
      * apply Ascii.eqb_eq in Ec'. subst c'. left. now exists r'.
      * right; left. exists nl, (String c' r'). split; [reflexivity |].
        split.
        -- rewrite startswith_pair, (Ascii.eqb_sym nl c'), Ec'.
           apply andb_false_r.
        -- right. cbn [leading_newlines]. rewrite Ec'. reflexivity.
  - right; left. exists c, r. split; [reflexivity |]. split.
    + rewrite startswith_pair, (Ascii.eqb_sym nl c), Ec. reflexivity.
    + left. exact Ec.
Qed.

Lemma half_succ_succ (n : nat) : (S (S n) + 1) / 2 = S ((n + 1) / 2).
Proof.
  replace (S (S n) + 1) with (1 * 2 + (n + 1)) by lia.
  rewrite Nat.div_add_l by lia. lia.
Qed.

Lemma half_max (a b : nat) :
  (Nat.max a b + 1) / 2 = Nat.max ((a + 1) / 2) ((b + 1) / 2).
Proof.
  destruct (Nat.le_ge_cases a b) as [H | H].
  - rewrite (Nat.max_r a b H). symmetry. apply Nat.max_r.
    apply Nat.Div0.div_le_mono. lia.
  - rewrite (Nat.max_l a b H). symmetry. apply Nat.max_l.
    apply Nat.Div0.div_le_mono. lia.
Qed.

(** One pass of the replacement halves every run of newlines, rounding
    up: the run at the start and the longest run. *)
Lemma replace_halves_runs (n : nat) :
  forall s, String.length s <= n ->
    leading_newlines (replace (NL ++ NL) NL s) = (leading_newlines s + 1) / 2
    /\ max_newline_run (replace (NL ++ NL) NL s)
       = (max_newline_run s + 1) / 2.
Proof.
  induction n as [| n IH]; intros s Hlen.
  - destruct s; [split; reflexivity | simpl in Hlen; lia].
  - destruct (pair_or_single s)
      as [[r ->] | [[c [r [-> [Hstart Hrun]]]] | ->]].
    + rewrite replace_pair.
      destruct (IH r) as [IHl IHm]; [simpl in Hlen; lia |].
      pose proof (leading_le_max r) as Hr.
      rewrite !max_newline_run_cons.
      change (leading_newlines (String nl (String nl r)))
        with (S (S (leading_newlines r))).
      change (leading_newlines (String nl (replace (NL ++ NL) NL r)))
        with (S (leading_newlines (replace (NL ++ NL) NL r))).
      change (leading_newlines (String nl r)) with (S (leading_newlines r)).
      rewrite IHl, IHm, !half_max, !half_succ_succ. split; [reflexivity |].
      assert ((S (leading_newlines r) + 1) / 2
              <= S ((leading_newlines r + 1) / 2)) as Hmid.
      { rewrite <- half_succ_succ. apply Nat.Div0.div_le_mono. lia. }
      lia.
    + rewrite (replace_single c r Hstart).
      destruct (IH r) as [IHl IHm]; [simpl in Hlen; lia |].
      rewrite !max_newline_run_cons.
      assert (leading_newlines (String c (replace (NL ++ NL) NL r))
              = (leading_newlines (String c r) + 1) / 2) as Hl.
      { cbn [leading_newlines]. destruct Hrun as [Hc | Hr].
        - rewrite Hc. reflexivity.
        - rewrite IHl, Hr. destruct (Ascii.eqb c nl); reflexivity. }
      rewrite Hl, IHm, half_max. split; reflexivity.
    + split; reflexivity.
Qed.

Lemma append_nil_r (s : string) : s ++ "" = s.
Proof. induction s as [| c s IH]; [reflexivity | cbn; now rewrite IH]. Qed.

Lemma last_char_cons (c : ascii) (r : string) :
  r <> EmptyString -> last_char (String c r) = last_char r.
Proof. destruct r; [contradiction | reflexivity]. Qed.

(** The replacement of a run of newlines that is not followed by a
    newline. *)
Lemma replace_run (n : nat) :
  forall m y, m <= n -> first_char y <> Some nl ->
    replace (NL ++ NL) NL (newlines m ++ y)
    = newlines ((m + 1) / 2) ++ replace (NL ++ NL) NL y.
Proof.
  induction n as [| n IH]; intros m y Hm Hy.
  - assert (m = 0) as -> by lia. reflexivity.
  - destruct m as [| [| m]].
    + reflexivity.
    + change (newlines 1 ++ y) with (String nl y).
      rewrite replace_single; [reflexivity |].
      rewrite startswith_pair. destruct y as [| c y]; [reflexivity |].
      destruct (Ascii.eqb nl c) eqn:Ec; [| reflexivity].
      apply Ascii.eqb_eq in Ec. subst c. now contradiction Hy.
    + change (newlines (S (S m)) ++ y)
        with (String nl (String nl (newlines m ++ y))).
      rewrite replace_pair, (IH m y) by (lia || assumption).
      rewrite half_succ_succ. reflexivity.
Qed.

(** The replacement goes through a text that does not end with a
    newline. *)
Lemma replace_prefix (n : nat) :
  forall x s, String.length x <= n -> last_char x <> Some nl ->
    replace (NL ++ NL) NL (x ++ s)
    = replace (NL ++ NL) NL x ++ replace (NL ++ NL) NL s.
Proof.
  induction n as [| n IH]; intros x s Hlen Hlast.
  - destruct x; [reflexivity | simpl in Hlen; lia].
  - destruct (pair_or_single x)
      as [[r ->] | [[c [r [-> [Hstart Hrun]]]] | ->]].
    + change (String nl (String nl r) ++ s)
        with (String nl (String nl (r ++ s))).
      rewrite !replace_pair.
      destruct r as [| c r]; [now contradiction Hlast |].
      rewrite (IH (String c r) s); [reflexivity | simpl in Hlen |- *; lia |].
      rewrite !last_char_cons in Hlast by discriminate. exact Hlast.
    + change (String c r ++ s) with (String c (r ++ s)).
      rewrite (replace_single c r Hstart).
      destruct r as [| c' r].
      * rewrite replace_single; [reflexivity |].
        rewrite startswith_pair.
        destruct (Ascii.eqb nl c) eqn:Ec; [| reflexivity].
        apply Ascii.eqb_eq in Ec. subst c. now contradiction Hlast.
      * rewrite replace_single.
        -- rewrite (IH (String c' r) s); [reflexivity | simpl in Hlen |- *; lia |].
           rewrite last_char_cons in Hlast by discriminate. exact Hlast.
        -- rewrite startswith_pair in Hstart |- *. exact Hstart.
    + reflexivity.
Qed.

(** A text without two newlines in a row is left as it is. *)
Lemma replace_without_pair (s : string) :
  max_newline_run s <= 1 -> replace (NL ++ NL) NL s = s.
Proof.
  induction s as [| c r IH]; intro Hrun; [reflexivity |].
  rewrite max_newline_run_cons in Hrun.
  rewrite replace_single; [rewrite IH; [reflexivity | lia] |].
  rewrite startswith_pair.
  destruct (Ascii.eqb nl c) eqn:Ec; [| reflexivity].
  apply Ascii.eqb_eq in Ec. subst c.
  destruct r as [| c' r]; [reflexivity |].
  destruct (Ascii.eqb nl c') eqn:Ec'; [| reflexivity].
  apply Ascii.eqb_eq in Ec'. subst c'.
  change (leading_newlines (String nl (String nl r)))
    with (S (S (leading_newlines r))) in Hrun. lia.
Qed.

Lemma lstrip_frame (s : string) :
  exists before, s = before ++ lstrip s /\ all_space before = true.
Proof.
  induction s as [| c r [before [Hs Hb]]]; [now exists "" |].
  cbn [lstrip]. destruct (is_space c) eqn:Ec.
  - exists (String c before). cbn [append all_space].
    rewrite <- Hs, Ec, Hb. split; reflexivity.
  - now exists "".
Qed.

Lemma rstrip_frame (s : string) :
  exists after, s = rstrip s ++ after /\ all_space after = true.
Proof.
  induction s as [| c r [after [Hs Ha]]]; [now exists "" |].
  cbn [rstrip]. destruct (rstrip r) as [| a b] eqn:E.
  - cbn [append] in Hs. subst after.
    destruct (is_space c) eqn:Ec.
    + exists (String c r). cbn [append all_space]. rewrite Ec, Ha.
      split; reflexivity.
    + exists r. split; [reflexivity | exact Ha].
  - exists after. split; [| exact Ha].
    change (String c r = String c (String a b ++ after)). now rewrite <- Hs.
Qed.

Lemma strip_frame (s : string) :
  exists before after,
    s = before ++ strip s ++ after
    /\ all_space before = true /\ all_space after = true.
Proof.
  destruct (lstrip_frame s) as [before [Hs Hb]].
  destruct (rstrip_frame (lstrip s)) as [after [Hl Ha]].
  exists before, after. unfold strip. rewrite <- Hl, <- Hs. repeat split; assumption.
Qed.

Lemma lstrip_runs s : max_newline_run (lstrip s) <= max_newline_run s.
Proof.
  induction s as [| c r IH]; [apply Nat.le_refl |].
  cbn [lstrip]. destruct (is_space c); [| apply Nat.le_refl].
  rewrite max_newline_run_cons. lia.
Qed.

Lemma rstrip_runs s :
  leading_newlines (rstrip s) <= leading_newlines s
  /\ max_newline_run (rstrip s) <= max_newline_run s.
Proof.
  induction s as [| c r [IHl IHm]]; [split; apply Nat.le_refl |].
  cbn [rstrip]. destruct (rstrip r) as [| a b] eqn:E.
  - destruct (is_space c) eqn:Ec; [split; apply Nat.le_0_l |].
    rewrite !max_newline_run_cons. cbn [leading_newlines max_newline_run].
    rewrite (space_not_newline c Ec). split; apply Nat.le_0_l.
  - remember (String a b) as t eqn:Et.
    rewrite (max_newline_run_cons c t), (max_newline_run_cons c r).
    cbn [leading_newlines]. destruct (Ascii.eqb c nl); lia.
Qed.

Lemma strip_runs s : max_newline_run (strip s) <= max_newline_run s.
Proof.
  unfold strip. destruct (rstrip_runs (lstrip s)) as [_ H].
  pose proof (lstrip_runs s). lia.
Qed.

Lemma lstrip_first s : not_space (first_char (lstrip s)) = true.
Proof.
  induction s as [| c r IH]; [reflexivity |].
  cbn [lstrip]. destruct (is_space c) eqn:Ec; [exact IH |].
  cbn [first_char not_space]. now rewrite Ec.
Qed.

Lemma rstrip_first s :
  not_space (first_char s) = true -> not_space (first_char (rstrip s)) = true.
Proof.
  destruct s as [| c r]; [trivial |].
  cbn [first_char not_space rstrip]. intro Hc.
  destruct (rstrip r); [| exact Hc].
  destruct (is_space c) eqn:Ec; [discriminate Hc |].
  cbn [first_char not_space]. now rewrite Ec.
Qed.

Lemma rstrip_last s : not_space (last_char (rstrip s)) = true.
Proof.
  induction s as [| c r IH]; [reflexivity |].
  cbn [rstrip]. destruct (rstrip r) as [| a b] eqn:E.
  - destruct (is_space c) eqn:Ec; [reflexivity |].
    cbn [last_char not_space]. now rewrite Ec.
  - exact IH.
Qed.

Lemma strip_trimmed s : trimmed (strip s) = true.
Proof.
  unfold trimmed, strip. apply andb_true_intro. split.
  - apply rstrip_first, lstrip_first.
  - apply rstrip_last.
Qed.

(** C7 (as amended) -- cleaning a segment replaces, in one pass from the
    left, each pair of newlines by one newline and removes the whitespace
    at both ends, and nothing else: a run of n newlines between a text
    that does not end and a text that does not start with a newline
    becomes a run of (n + 1) / 2 newlines (a pair becomes one newline, a
    longer run is halved, rounding up), a segment without two newlines in
    a row is only trimmed, and what the cleaning removes from the ends of
    the replaced segment is whitespace.  So the longest run of the
    replaced segment is half the longest run of the segment, rounded up;
    the cleaned segment has no run of more than one empty line when the
    segment has no run of more than three, and it never starts or ends
    with whitespace. *)
Theorem clean_theme_halves_newline_runs (segment : string) :
  (forall x y n,
      segment = x ++ newlines n ++ y ->
      last_char x <> Some nl -> first_char y <> Some nl ->
      clean_theme segment
      = strip (replace (NL ++ NL) NL x ++ newlines ((n + 1) / 2)
               ++ replace (NL ++ NL) NL y))
  /\ (max_newline_run segment <= 1 -> clean_theme segment = strip segment)
  /\ (exists before after,
        replace (NL ++ NL) NL segment = before ++ clean_theme segment ++ after
        /\ all_space before = true /\ all_space after = true)
  /\ max_newline_run (replace (NL ++ NL) NL segment)
     = (max_newline_run segment + 1) / 2
  /\ max_newline_run (clean_theme segment) <= (max_newline_run segment + 1) / 2
  /\ (max_blank_lines segment <= 3 ->
      max_blank_lines (clean_theme segment) <= 1)
  /\ trimmed (clean_theme segment) = true.
Proof.
  destruct (replace_halves_runs (String.length segment) segment
              (Nat.le_refl _)) as [_ Hexact].
  assert (max_newline_run (clean_theme segment)
          <= (max_newline_run segment + 1) / 2) as Hhalf.
  { unfold clean_theme.
    pose proof (strip_runs (replace (NL ++ NL) NL segment)). lia. }
  split; [| split; [| split; [| split; [exact Hexact |]]]].
  - intros x y n -> Hx Hy. unfold clean_theme.
    rewrite (replace_prefix (String.length x) x _ (Nat.le_refl _) Hx).
    rewrite (replace_run n n y (Nat.le_refl _) Hy). reflexivity.
  - intro Hrun. unfold clean_theme. now rewrite replace_without_pair.
  - unfold clean_theme. apply strip_frame.
  - split; [exact Hhalf |]. split; [| apply strip_trimmed].
    unfold max_blank_lines. intro Hthree.
    assert ((max_newline_run segment + 1) / 2 <= (4 + 1) / 2) as H
        by (apply Nat.Div0.div_le_mono; lia).
    change ((4 + 1) / 2) with 2 in H. lia.
Qed.

Lemma clean_theme_halves_newline_runs_witness :
  clean_theme ("Title" ++ NL ++ NL ++ "Desc") = "Title" ++ NL ++ "Desc"
  /\ clean_theme ("Title" ++ NL ++ NL ++ NL ++ NL ++ NL ++ "Desc")
     = "Title" ++ NL ++ NL ++ NL ++ "Desc"
  /\ max_blank_lines ("Title" ++ NL ++ NL ++ NL ++ "Desc") <= 3
  /\ max_blank_lines (clean_theme ("Title" ++ NL ++ NL ++ NL ++ "Desc")) <= 1.
Proof.
  destruct (clean_theme_halves_newline_runs ("Title" ++ NL ++ NL ++ "Desc"))
    as [Hpair _].
  destruct (clean_theme_halves_newline_runs
              ("Title" ++ NL ++ NL ++ NL ++ NL ++ NL ++ "Desc"))
    as [Hfive _].
  destruct (clean_theme_halves_newline_runs
              ("Title" ++ NL ++ NL ++ NL ++ "Desc"))
    as [_ [_ [_ [_ [_ [Hblank _]]]]]].
  assert (max_blank_lines ("Title" ++ NL ++ NL ++ NL ++ "Desc") <= 3) as Hin
      by (vm_compute; lia).
  split; [| split; [| split; [exact Hin | exact (Hblank Hin)]]].
  - exact (Hpair "Title" "Desc" 2 eq_refl ltac:(discriminate)
             ltac:(discriminate)).
  - exact (Hfive "Title" "Desc" 5 eq_refl ltac:(discriminate)
             ltac:(discriminate)).
Defined.

(** C7 (as stated) fails: a segment with five newlines in a row (four
    empty lines) is cleaned to one with three newlines in a row, a run of
    two empty lines. *)
Lemma clean_theme_keeps_two_blank_lines :
  clean_theme five_newlines = "a" ++ NL ++ NL ++ NL ++ "b"
  /\ max_blank_lines (clean_theme five_newlines) = 2
  /\ parse_themes ("**1. " ++ five_newlines) = ["a" ++ NL ++ NL ++ NL ++ "b"]
  /\ ~ (forall segment, max_blank_lines (clean_theme segment) <= 1).
Proof.
  repeat split; try reflexivity.
  intro H. specialize (H five_newlines). vm_compute in H. lia.
Qed.

(** ** The prompt of a plan *)

Lemma contains_here sub s : startswith sub s = true -> contains sub s = true.
Proof.
  intro H. destruct s; cbn [contains]; rewrite H; reflexivity.
Qed.

Lemma contains_after sub pre s :
  contains sub s = true -> contains sub (pre ++ s) = true.
Proof.
  intro H. induction pre as [| c pre IH]; [exact H |].
  cbn [append contains]. rewrite IH. apply orb_true_r.
Qed.


Definition conference : EventPlanInput :=
  {| selected_theme := "Rally of Ideas"; start_date := "24-01-2025";
     end_date := "25-01-2025"; start_time := "11:00 AM";
     end_time := "5:00 PM"; location := "HYDERABAD";
     event_type := "Technical Conference";
     input_moderators := [[("name", "Jai Kumar"); ("city", "Hyderabad")]] |}.

Definition conference_details : list (string * string) :=
  [("start_date", "24-01-2025"); ("end_date", "25-01-2025");
   ("start_time", "11:00 AM"); ("end_time", "5:00 PM");
   ("location", "HYDERABAD"); ("event_type", "Technical Conference")].



(** The single-day case, and that the chosen prompt is the one sent: a
    service that answers only the single-day prompt is answered. *)
Example single_day_prompt_is_sent :
  let one_day :=
    {| selected_theme := "Rally of Ideas"; start_date := "24-01-2025";
       end_date := "24-01-2025"; start_time := "11:00 AM";
       end_time := "5:00 PM"; location := "HYDERABAD";
       event_type := "Technical Conference"; input_moderators := [] |} in
  let service := fun (_ prompt _ _ : string) =>
    if String.eqb prompt
         (single_day_prompt one_day "No specific moderators provided.")
    then Ok (chat_response " Agenda ")
    else Raise (OtherException "BadRequest" "unexpected prompt") in
  fst (_refine_plan local_settings service one_day fresh_world) = Ok "Agenda".
Proof. vm_compute. reflexivity. Qed.

(** * Further properties of the data-access layer *)



(** The constraints of the two tables: ids are distinct and at most the
    AUTOINCREMENT counter; participant emails are distinct. *)
Definition ids_ok {R : Type} (id : R -> Z) (t : table R) : Prop :=
  NoDup (map id (rows t)) /\ Forall (fun r => (id r <= seq t)%Z) (rows t).

Definition store_ok (s : Store) : Prop :=
  (forall t, moderators s = Some t -> ids_ok m_id t)
  /\ (forall t, participants s = Some t ->
        ids_ok p_id t /\ NoDup (map p_email (rows t))).


Lemma ids_ok_insert {R : Type} (id : R -> Z) (t : table R) (r : R) :
  ids_ok id t -> id r = (seq t + 1)%Z ->
  ids_ok id {| rows := (rows t ++ [r])%list; seq := (seq t + 1)%Z;
            name_index := name_index t |}.
Proof.
  intros [Hnd Hle] Hid. split; cbn [rows seq].
  - rewrite map_app. cbn [map].
    apply NoDup_app; [exact Hnd | apply NoDup_cons; [intros [] | apply NoDup_nil] |].
    intros x Hx [Hx' | []]. subst x.
    apply in_map_iff in Hx. destruct Hx as [r' [Hr' Hin]].
    rewrite Forall_forall in Hle. apply Hle in Hin. lia.
  - apply Forall_app. split.
    + eapply Forall_impl; [| exact Hle]. cbn beta. intros; lia.
    + apply Forall_cons; [lia | apply Forall_nil].
Qed.





(** What the two writes do to the database. *)
Lemma add_participant_store
      (name email : string) (company role phone : option string) (w : World) :
  store (snd (db_setup.add_participant name email company role phone w))
  = match participants (store w) with
    | None => store w
    | Some t =>
        if existsb (fun r => String.eqb (p_email r) email) (rows t)
        then store w
        else
          {| moderators := moderators (store w);
             participants :=
               Some {| rows := (rows t ++
                         [{| p_id := seq t + 1; p_name := name;
                             p_email := email; p_company := company;
                             p_role := role; p_phone := phone;
                             p_created_at := now w |}])%list;
                       seq := seq t + 1;
                       name_index := name_index t |} |}
    end.
Proof.
  run_db. destruct (participants (store w)) as [t |]; simpl.
  - destruct (existsb _ (rows t)); simpl; rewrite ?Nat.eqb_refl; reflexivity.
  - reflexivity.
Qed.


(** X3 -- [add_participant] keeps the constraints of the tables whatever
    it is given and however it ends: participant emails stay pairwise
    distinct, and ids stay distinct and within the counter. *)
Theorem add_participant_keeps_constraints
        (name email : string) (company role phone : option string)
        (w : World) :
  store_ok (store w) ->
  store_ok (store (snd (db_setup.add_participant name email company role
                          phone w))).
Proof.
  intro Hok. rewrite add_participant_store.
  destruct (participants (store w)) as [t |] eqn:Ht; [| exact Hok].
  destruct (existsb _ (rows t)) eqn:Hdup; [exact Hok |].
  destruct Hok as [Hmods Hparts].
  destruct (Hparts t Ht) as [Hids Hemails].
  split; cbn [moderators participants].
  - exact Hmods.
  - intros t' Ht'. injection Ht' as <-. split.
    + now apply (ids_ok_insert p_id t).
    + cbn [rows]. rewrite map_app. cbn [map p_email].
      apply NoDup_app;
        [exact Hemails | apply NoDup_cons; [intros [] | apply NoDup_nil] |].
      intros x Hx [Hx' | []]. subst x.
      apply in_map_iff in Hx. destruct Hx as [r [Hr Hin]].
      assert (existsb (fun r => String.eqb (p_email r) email) (rows t) = true)
        as Habs by (apply email_taken; now exists r).
      rewrite Habs in Hdup. discriminate.
Qed.

Ltac list_facts :=
  repeat first
    [ apply NoDup_nil
    | apply Forall_nil
    | apply NoDup_cons; [cbn; intuition (try discriminate; try lia) |]
    | apply Forall_cons; [cbn; lia |] ].

Lemma seeded_store_ok : store_ok seeded_store.
Proof.
  split; intros t Ht; injection Ht as <-; unfold ids_ok; cbn;
    repeat split; list_facts.
Qed.

Lemma add_participant_keeps_constraints_witness :
  store_ok (store (snd (db_setup.add_participant "Bobby"
                          "bob.johnson@innovate.com" None None None
                          seeded_world))).
Proof.
  apply (add_participant_keeps_constraints "Bobby" "bob.johnson@innovate.com"
           None None None seeded_world).
  exact seeded_store_ok.
Defined.



(** The number of [?] that the names make in a query. *)
Definition name_count (names : option (list string)) : nat :=
  match names with
  | Some l => List.length l
  | None => 0
  end.

Lemma no_variable_fits (w : World) : sqlite3.too_many_variables 0 w = false.
Proof.
  unfold sqlite3.too_many_variables. apply N.ltb_ge. lia.
Qed.

Ltac closed_here :=
  let Hopen := fresh "Hopen" in
  let Hneq := fresh "Hneq" in
  intro Hopen; apply filter_In in Hopen; destruct Hopen as [_ Hneq];
  rewrite Nat.eqb_refl in Hneq; discriminate Hneq.

(** The world after a call that opened and closed its connection and
    printed up to [out]. *)
Definition after_call (w : World) (out : list printed) : World :=
  {| store := store w;
     open_conns := filter (fun c => negb (Nat.eqb (next_conn w) c)) (open_conns w);
     next_conn := S (next_conn w); stdout := out; now := now w;
     max_variable_number := max_variable_number w;
     index_chosen := index_chosen w |}.

Ltac branch_db :=
  repeat match goal with
         | |- context [Nat.eqb ?a ?a] => rewrite (Nat.eqb_refl a); simpl
         | |- context [if ?b then _ else _] => destruct b eqn:?; simpl
         | |- context [match moderators ?s with _ => _ end] =>
             destruct (moderators s); simpl
         | |- context [match participants ?s with _ => _ end] =>
             destruct (participants s); simpl
         end.

(** Every way [fetch_moderators_from_db] ends. *)
Lemma fetch_moderators_outcome (names : option (list string)) (w : World) :
  DatabaseManager.fetch_moderators_from_db names w
  = if sqlite3.too_many_variables (name_count names) w
    then (Ok [],
          after_call w
            (stdout w ++ [DbErrorModerators
                            (OperationalError "too many SQL variables")])%list)
    else
      match moderators (store w) with
      | None =>
          (Ok [],
           after_call w
             (stdout w ++ [DbErrorModerators
                             (OperationalError "no such table: moderators")])%list)
      | Some t =>
          (Ok (map moderator_dict
                 match names with
                 | Some ((_ :: _) as l) =>
                    sqlite3.where_name_in m_name l
                      (index_chosen w (List.length l)) t
                 | _ => rows t
                 end),
           after_call w (stdout w))
      end.
Proof.
  unfold after_call.
  destruct names as [[| n names] |]; run_db; bound_db;
    rewrite ?(no_variable_fits w); simpl; branch_db;
    rewrite ?Nat.eqb_refl; simpl; reflexivity.
Qed.

(** Every way [fetch_participants_from_db] ends. *)
Lemma fetch_participants_outcome
      (names : option (list string)) (limit : option Z) (w : World) :
  DatabaseManager.fetch_participants_from_db names limit w
  = if sqlite3.too_many_variables (name_count names) w
    then (Ok [],
          after_call w
            (stdout w ++ [DbErrorParticipants
                            (OperationalError "too many SQL variables")])%list)
    else
      match participants (store w) with
      | None =>
          (Ok [],
           after_call w
             (stdout w
              ++ [DbErrorParticipants
                    (OperationalError "no such table: participants")])%list)
      | Some t =>
          match names with
          | Some ((_ :: _) as l) =>
              (Ok (map participant_dict
                     (sqlite3.where_name_in p_name l
                        (index_chosen w (List.length l)) t)),
               after_call w (stdout w))
          | _ =>
              match limit with
              | Some n =>
                  if Z.eqb n 0
                  then (Ok (map participant_dict (rows t)),
                        after_call w (stdout w))
                  else if sqlite3.fits_int64 n
                       then (Ok (map participant_dict
                                   (sqlite3.sql_limit n (rows t))),
                             after_call w (stdout w))
                       else (Raise sqlite3.int_overflow,
                             after_call w (stdout w))
              | None => (Ok (map participant_dict (rows t)),
                         after_call w (stdout w))
              end
          end
      end.
Proof.
  unfold after_call.
  destruct names as [[| n names] |]; destruct limit as [l |]; run_db;
    try (destruct (Z.eqb l 0); simpl);
    rewrite ?one_variable_fits, ?no_variable_fits; simpl; bound_db;
    branch_db; rewrite ?Nat.eqb_refl; simpl; reflexivity.
Qed.

Lemma closed_after_call (w : World) (out : list printed) :
  ~ In (next_conn w) (open_conns (after_call w out)).
Proof. unfold after_call. cbn [open_conns]. closed_here. Qed.

(** X5 -- once its connection is open, [fetch_moderators_from_db]
    catches the errors of its query: a list of names longer than the
    library allows variables, or a missing moderators table, gives the
    empty list and the printed database error; on an existing table
    nothing is printed.  In each case the database is unchanged and the
    connection of the call is closed. *)
Theorem fetch_moderators_catches_query_errors
        (names : option (list string)) (w : World) :
  let after := DatabaseManager.fetch_moderators_from_db names w in
  store (snd after) = store w
  /\ ~ In (next_conn w) (open_conns (snd after))
  /\ (sqlite3.too_many_variables (name_count names) w = true ->
      fst after = Ok []
      /\ stdout (snd after)
         = (stdout w ++ [DbErrorModerators
                           (OperationalError "too many SQL variables")])%list)
  /\ (sqlite3.too_many_variables (name_count names) w = false ->
      moderators (store w) = None ->
      fst after = Ok []
      /\ stdout (snd after)
         = (stdout w ++ [DbErrorModerators
                           (OperationalError "no such table: moderators")])%list)
  /\ (sqlite3.too_many_variables (name_count names) w = false ->
      moderators (store w) <> None ->
      (exists found, fst after = Ok found)
      /\ stdout (snd after) = stdout w).
Proof.
  cbn zeta. rewrite fetch_moderators_outcome.
  destruct (sqlite3.too_many_variables (name_count names) w);
    [| destruct (moderators (store w)) as [t |]]; cbn [fst snd];
    (split; [reflexivity |]); (split; [apply closed_after_call |]);
    repeat split; intros; try discriminate; try contradiction;
    try reflexivity; try (eexists; reflexivity).
Qed.

Lemma fetch_moderators_catches_query_errors_witness :
  fst (DatabaseManager.fetch_moderators_from_db (Some ["Jai Kumar"])
         fresh_world) = Ok []
  /\ stdout (snd (DatabaseManager.fetch_moderators_from_db
                    (Some ["Jai Kumar"]) fresh_world))
     = [DbErrorModerators (OperationalError "no such table: moderators")]
  /\ fst (DatabaseManager.fetch_moderators_from_db (Some many_names)
            seeded_world) = Ok [].
Proof.
  destruct (fetch_moderators_catches_query_errors (Some ["Jai Kumar"])
              fresh_world) as [_ [_ [_ [Hmissing _]]]].
  destruct (fetch_moderators_catches_query_errors (Some many_names)
              seeded_world) as [_ [_ [Hmany _]]].
  destruct (Hmissing eq_refl eq_refl) as [Hempty Hout].
  destruct (Hmany many_names_too_many) as [Hrefused _].
  repeat split; assumption.
Defined.

(** X6 -- once its connection is open, [fetch_participants_from_db]
    catches the errors that its query raises as [sqlite3.Error]: a list of
    names longer than the library allows variables, or a missing
    participants table, gives the empty list and the printed database
    error, whatever the limit.  However the call ends, also by the
    OverflowError of a limit outside 64 bits, the database is unchanged
    and the connection of the call is closed. *)
Theorem fetch_participants_catches_query_errors
        (names : option (list string)) (limit : option Z) (w : World) :
  let after := DatabaseManager.fetch_participants_from_db names limit w in
  store (snd after) = store w
  /\ ~ In (next_conn w) (open_conns (snd after))
  /\ (sqlite3.too_many_variables (name_count names) w = true ->
      fst after = Ok []
      /\ stdout (snd after)
         = (stdout w ++ [DbErrorParticipants
                           (OperationalError "too many SQL variables")])%list)
  /\ (sqlite3.too_many_variables (name_count names) w = false ->
      participants (store w) = None ->
      fst after = Ok []
      /\ stdout (snd after)
         = (stdout w
            ++ [DbErrorParticipants
                  (OperationalError "no such table: participants")])%list)
  /\ (sqlite3.too_many_variables (name_count names) w = false ->
      participants (store w) <> None ->
      stdout (snd after) = stdout w).
Proof.
  cbn zeta. rewrite fetch_participants_outcome.
  destruct (sqlite3.too_many_variables (name_count names) w);
    [| destruct (participants (store w)) as [t |]];
    [| destruct names as [[| n names] |]; destruct limit as [l |];
       try destruct (Z.eqb l 0); try destruct (sqlite3.fits_int64 l) |];
    cbn [fst snd];
    (split; [reflexivity |]); (split; [apply closed_after_call |]);
    repeat split; intros; try discriminate; try contradiction;
    try reflexivity.
Qed.

Lemma fetch_participants_catches_query_errors_witness :
  fst (DatabaseManager.fetch_participants_from_db None (Some 10%Z)
         fresh_world) = Ok []
  /\ stdout (snd (DatabaseManager.fetch_participants_from_db None (Some 10%Z)
                    fresh_world))
     = [DbErrorParticipants (OperationalError "no such table: participants")]
  /\ fst (DatabaseManager.fetch_participants_from_db (Some many_names) None
            seeded_world) = Ok [].
Proof.
  destruct (fetch_participants_catches_query_errors None (Some 10%Z)
              fresh_world) as [_ [_ [_ [Hmissing _]]]].
  destruct (fetch_participants_catches_query_errors (Some many_names) None
              seeded_world) as [_ [_ [Hmany _]]].
  destruct (Hmissing eq_refl eq_refl) as [Hempty Hout].
  destruct (Hmany many_names_too_many) as [Hrefused _].
  repeat split; assumption.
Defined.

(** X7 -- [add_participant] catches the duplicate email only: on a file
    without the participants table the database error leaves the function,
    nothing is printed or stored, and the connection is closed. *)
Theorem add_participant_passes_other_errors
        (name email : string) (company role phone : option string)
        (w : World) :
  participants (store w) = None ->
  let after := db_setup.add_participant name email company role phone w in
  fst after = Raise (OperationalError "no such table: participants")
  /\ store (snd after) = store w
  /\ stdout (snd after) = stdout w
  /\ ~ In (next_conn w) (open_conns (snd after)).
Proof.
  intros Ht after. subst after. run_db. rewrite Ht. simpl.
  rewrite ?Nat.eqb_refl. simpl. repeat split.
  intro Hopen. apply filter_In in Hopen. destruct Hopen as [_ Hneq].
  rewrite Nat.eqb_refl in Hneq. discriminate.
Qed.

Lemma add_participant_passes_other_errors_witness :
  fst (db_setup.add_participant "Alice Smith" "alice.smith@techcorp.com"
         None None None fresh_world)
  = Raise (OperationalError "no such table: participants").
Proof.
  destruct (add_participant_passes_other_errors "Alice Smith"
              "alice.smith@techcorp.com" None None None fresh_world eq_refl)
    as [Hraise _].
  exact Hraise.
Defined.

Lemma name_in_same_elements names names' :
  (forall n, In n names <-> In n names') ->
  forall n, sqlite3.name_in names n = sqlite3.name_in names' n.
Proof.
  intros Hsame n. rewrite !name_in_listed.
  destruct (listed names n) eqn:E; destruct (listed names' n) eqn:E';
    try reflexivity.
  - apply listed_In, Hsame, listed_In in E. congruence.
  - apply listed_In, Hsame, listed_In in E'. congruence.
Qed.

Lemma where_name_in_same_elements {R : Type} (name : R -> string)
      (names names' : list string) (t : table R) :
  (forall n, In n names <-> In n names') ->
  forall by_index,
    sqlite3.where_name_in name names by_index t
    = sqlite3.where_name_in name names' by_index t.
Proof.
  intros Hsame by_index. unfold sqlite3.where_name_in.
  rewrite (filter_ext _ _
             (fun r => name_in_same_elements _ _ Hsame (name r))).
  reflexivity.
Qed.

(** X8 -- the names given to the two fetches act as a set: two non-empty
    lists with the same elements (in any order, with any repetitions),
    neither longer than the library allows variables, select the same
    moderators, each as often, and every moderator returned bears one of
    the names; when the planner makes the same choice for both lists, the
    two calls give the same result, in the same order, and the same
    state. *)
Theorem name_filter_is_membership
        (names names' : list string) (w : World) :
  names <> [] -> names' <> [] ->
  (forall n, In n names <-> In n names') ->
  sqlite3.too_many_variables (List.length names) w = false ->
  sqlite3.too_many_variables (List.length names') w = false ->
  (index_chosen w (List.length names) = index_chosen w (List.length names') ->
   DatabaseManager.fetch_moderators_from_db (Some names) w
   = DatabaseManager.fetch_moderators_from_db (Some names') w
   /\ DatabaseManager.fetch_participants_from_db (Some names) None w
      = DatabaseManager.fetch_participants_from_db (Some names') None w)
  /\ (exists found found',
        fst (DatabaseManager.fetch_moderators_from_db (Some names) w)
        = Ok found
        /\ fst (DatabaseManager.fetch_moderators_from_db (Some names') w)
           = Ok found'
        /\ Permutation found found')
  /\ (forall found,
        fst (DatabaseManager.fetch_moderators_from_db (Some names) w)
        = Ok found ->
        Forall (fun d => In (mi_name d) names) found).
Proof.
  intros Hn Hn' Hsame Hfits Hfits'.
  destruct names as [| n names]; [contradiction |].
  destruct names' as [| n' names']; [contradiction |].
  rewrite !fetch_moderators_outcome, !fetch_participants_outcome.
  cbn [name_count]. rewrite Hfits, Hfits'.
  split; [| split].
  - intros ->. split.
    + destruct (moderators (store w)) as [t |]; [| reflexivity].
      now rewrite (where_name_in_same_elements m_name _ _ t Hsame).
    + destruct (participants (store w)) as [t |]; [| reflexivity].
      now rewrite (where_name_in_same_elements p_name _ _ t Hsame).
  - destruct (moderators (store w)) as [t |]; cbn [fst];
      [| exists [], []; repeat split; apply perm_nil].
    eexists. eexists. split; [reflexivity |]. split; [reflexivity |].
    apply Permutation_map.
    rewrite (where_name_in_same_elements m_name _ _ t Hsame).
    eapply perm_trans; [apply where_name_in_permutation |].
    apply Permutation_sym, where_name_in_permutation.
  - intro found.
    destruct (moderators (store w)) as [t |]; cbn [fst];
      intro Hfound; injection Hfound as <-; [| apply Forall_nil].
    apply Forall_forall. intros d Hd.
    apply in_map_iff in Hd. destruct Hd as [r [<- Hr]].
    apply (Permutation_in _ (where_name_in_permutation m_name _ _ t)) in Hr.
    apply filter_In in Hr. destruct Hr as [_ Hr]. now apply listed_In in Hr.
Qed.

Lemma name_filter_is_membership_witness :
  DatabaseManager.fetch_participants_from_db
    (Some ["Bob Johnson"; "Nobody"; "Bob Johnson"]) None seeded_world
  = DatabaseManager.fetch_participants_from_db
      (Some ["Nobody"; "Bob Johnson"]) None seeded_world.
Proof.
  apply (name_filter_is_membership ["Bob Johnson"; "Nobody"; "Bob Johnson"]
           ["Nobody"; "Bob Johnson"] seeded_world);
    [discriminate | discriminate | intro n; cbn; tauto
    | reflexivity | reflexivity | reflexivity].
Defined.

(** X9 -- without names, a limit that fits in 64 bits cuts the result to
    its first [limit] rows when it is positive and cuts nothing when it
    is negative; a limit outside 64 bits cannot be bound: OverflowError
    leaves the function, uncaught, with nothing printed and the
    connection closed. *)
Theorem fetch_participants_limit_bounds
        (limit : Z) (w : World) (t : table participant) :
  participants (store w) = Some t ->
  (limit <> 0)%Z ->
  let after := DatabaseManager.fetch_participants_from_db None (Some limit) w in
  ((0 < limit < 2 ^ 63)%Z ->
   fst after = Ok (firstn (Z.to_nat limit) (map participant_dict (rows t)))
   /\ exists l, fst after = Ok l /\ (Z.of_nat (List.length l) <= limit)%Z)
  /\ ((- 2 ^ 63 <= limit < 0)%Z ->
      fst after = Ok (map participant_dict (rows t)))
  /\ ((limit < - 2 ^ 63 \/ 2 ^ 63 <= limit)%Z ->
      fst after = Raise sqlite3.int_overflow
      /\ stdout (snd after) = stdout w
      /\ store (snd after) = store w
      /\ ~ In (next_conn w) (open_conns (snd after))).
Proof.
  intros Ht Hnz after. subst after. apply Z.eqb_neq in Hnz.
  rewrite fetch_participants_outcome. cbn [name_count].
  rewrite (no_variable_fits w), Ht, Hnz.
  unfold sqlite3.fits_int64, sqlite3.sql_limit.
  split; [| split]; intro Hrange.
  - assert ((- 2 ^ 63 <=? limit)%Z && (limit <? 2 ^ 63)%Z = true) as ->
        by (apply andb_true_intro; split;
            [apply Z.leb_le | apply Z.ltb_lt]; lia).
    assert ((limit <? 0)%Z = false) as -> by (apply Z.ltb_ge; lia).
    cbn [fst]. rewrite <- firstn_map. split; [reflexivity |].
    eexists. split; [reflexivity |]. rewrite length_firstn. lia.
  - assert ((- 2 ^ 63 <=? limit)%Z && (limit <? 2 ^ 63)%Z = true) as ->
        by (apply andb_true_intro; split;
            [apply Z.leb_le | apply Z.ltb_lt]; lia).
    assert ((limit <? 0)%Z = true) as -> by (apply Z.ltb_lt; lia).
    reflexivity.
  - assert ((- 2 ^ 63 <=? limit)%Z && (limit <? 2 ^ 63)%Z = false) as ->.
    { apply andb_false_iff. destruct Hrange;
        [left; apply Z.leb_gt | right; apply Z.ltb_ge]; lia. }
    cbn [fst snd]. repeat split. apply closed_after_call.
Qed.

Lemma fetch_participants_limit_bounds_witness :
  fst (DatabaseManager.fetch_participants_from_db None (Some 1%Z) seeded_world)
  = Ok [participant_dict alice]
  /\ fst (DatabaseManager.fetch_participants_from_db None (Some (-1)%Z)
            seeded_world)
     = Ok [participant_dict alice; participant_dict bob]
  /\ fst (DatabaseManager.fetch_participants_from_db None
            (Some (2 ^ 63)%Z) seeded_world)
     = Raise sqlite3.int_overflow.
Proof.
  destruct (fetch_participants_limit_bounds 1%Z seeded_world
              {| rows := [alice; bob]; seq := 2; name_index := true |} eq_refl)
    as [Hpos _]; [discriminate |].
  destruct (fetch_participants_limit_bounds (-1)%Z seeded_world
              {| rows := [alice; bob]; seq := 2; name_index := true |} eq_refl)
    as [_ [Hneg _]]; [discriminate |].
  destruct (fetch_participants_limit_bounds (2 ^ 63)%Z seeded_world
              {| rows := [alice; bob]; seq := 2; name_index := true |} eq_refl)
    as [_ [_ Hbig]]; [discriminate |].
  split; [| split].
  - destruct Hpos as [Hcut _]; [split; reflexivity | exact Hcut].
  - apply Hneg. split; [discriminate | reflexivity].
  - destruct Hbig as [Hraise _]; [right; discriminate | exact Hraise].
Defined.

(** * Further properties of the completion handling *)

(** [isinstance(v, dict)] *)
Definition is_dict (v : pyvalue) : bool :=
  match v with
  | PyDict _ => true
  | _ => false
  end.

(** X10 -- a response that is not a dict never yields text: None is
    rejected as "LLM returned None response" and any other value, whatever
    it holds, as "LLM response has no choices"; the registered theme
    function then returns the fallback themes for that error. *)
Theorem non_dict_response_is_rejected
        (response : pyvalue) (settings : Settings)
        (completion : string -> string -> string -> string -> result pyvalue)
        (event_idea : string) (w : World) :
  is_dict response = false ->
  completion (model_name settings) (themes_prompt event_idea)
             (nim_base_url settings) (nim_api_key settings) = Ok response ->
  let e := ValueError (match response with
                       | PyNone => "LLM returned None response"
                       | _ => "LLM response has no choices"
                       end) in
  response_text response = Raise e
  /\ fst (_generate_themes settings completion event_idea w)
     = Ok (fallback_themes e).
Proof.
  intros Hdict Hcall e. subst e.
  assert (response_text response
          = Raise (ValueError (match response with
                               | PyNone => "LLM returned None response"
                               | _ => "LLM response has no choices"
                               end))) as Hresp
      by (destruct response; try discriminate Hdict; reflexivity).
  split; [exact Hresp |].
  run_llm. rewrite Hcall. simpl. rewrite Hresp. reflexivity.
Qed.

Lemma non_dict_response_is_rejected_witness :
  response_text (PyObject "ModelResponse")
  = Raise (ValueError "LLM response has no choices")
  /\ fst (_generate_themes local_settings
            (fun _ _ _ _ => Ok (PyObject "ModelResponse"))
            "pickle ball event" fresh_world)
     = Ok (fallback_themes (ValueError "LLM response has no choices")).
Proof.
  exact (non_dict_response_is_rejected (PyObject "ModelResponse")
           local_settings (fun _ _ _ _ => Ok (PyObject "ModelResponse"))
           "pickle ball event" fresh_world eq_refl eq_refl).
Defined.

(** Text that was taken from a response is a stripped string. *)
Lemma response_text_is_strip (response : pyvalue) (raw_response : string) :
  response_text response = Ok raw_response ->
  exists content, content <> "" /\ raw_response = strip content.
Proof.
  intro H. unfold response_text in H.
  destruct response as [| b | z | s | l | d | cls]; try discriminate H.
  unfold getitem in H. cbn [rbind] in H.
  destruct (lookup "choices" d) as [choices |] eqn:Hchoices;
    [| discriminate H].
  cbn [rbind] in H.
  destruct choices as [| b | z | s | [| first rest] | d' | cls];
    cbn in H; try discriminate H.
  - destruct b; discriminate H.
  - destruct (Z.eqb z 0); discriminate H.
  - destruct s as [| c s]; cbn in H; discriminate H.
  - destruct first as [| b | z | s | l | message_of | cls];
      cbn in H; try discriminate H.
    unfold dict_get in H.
    destruct (lookup "message" message_of) as [message |] eqn:Hmessage;
      [| discriminate H].
    destruct message as [| b | z | s | l | m | cls]; cbn in H;
      try discriminate H.
    + destruct b; discriminate H.
    + destruct (Z.eqb z 0); discriminate H.
    + destruct s; discriminate H.
    + destruct l; discriminate H.
    + destruct m as [| entry m]; [discriminate H |]. cbn in H.
      unfold dict_get in H. fold (@lookup pyvalue "content" (entry :: m)) in H.
      destruct (lookup "content" (entry :: m)) as [content |] eqn:Hcontent.
      * destruct content as [| b | z | s | l | c' | cls]; cbn in H;
          try discriminate H.
        -- destruct b; discriminate H.
        -- destruct (Z.eqb z 0); discriminate H.
        -- destruct s as [| c s]; [discriminate H |].
           injection H as <-.
           exists (String c s). split; [discriminate | reflexivity].
        -- destruct l; discriminate H.
        -- destruct c'; discriminate H.
      * cbn in H. discriminate H.
  - destruct d'; cbn in H; discriminate H.
Qed.

(** X11 -- from a response that is a dict whose "choices" is a list that
    starts with a dict whose "message" is a dict whose "content" is a
    string, the text taken is that string with its surrounding whitespace
    removed when the string is not empty, whatever else the response
    holds; an empty string is rejected as "LLM response has no
    content". *)
Theorem response_text_is_stripped_content
        (d first message : list (string * pyvalue)) (rest : list pyvalue)
        (content : string) :
  lookup "choices" d = Some (PyList (PyDict first :: rest)) ->
  lookup "message" first = Some (PyDict message) ->
  lookup "content" message = Some (PyStr content) ->
  (content <> "" -> response_text (PyDict d) = Ok (strip content))
  /\ (content = "" ->
      response_text (PyDict d)
      = Raise (ValueError "LLM response has no content")).
Proof.
  intros Hchoices Hmessage Hcontent.
  assert (response_text (PyDict d)
          = if negb (nonempty content)
            then Raise (ValueError "LLM response has no content")
            else Ok (strip content)) as ->.
  { unfold response_text, getitem. rewrite Hchoices.
    cbn [rbind truthy negb len List.length Nat.eqb getitem0 method_get].
    unfold dict_get. rewrite Hmessage.
    destruct message as [| entry message]; [discriminate Hcontent |].
    cbn [truthy negb rbind method_get]. unfold dict_get. rewrite Hcontent.
    cbn [truthy method_strip]. reflexivity. }
  split; intro H; destruct content as [| c content];
    try contradiction; try discriminate; reflexivity.
Qed.

Lemma response_text_is_stripped_content_witness :
  response_text (chat_response " Agenda ") = Ok (strip " Agenda ").
Proof.
  apply (response_text_is_stripped_content
           [("choices",
             PyList [PyDict [("message",
                              PyDict [("content", PyStr " Agenda ")])]])]
           [("message", PyDict [("content", PyStr " Agenda ")])]
           [("content", PyStr " Agenda ")] [] " Agenda ");
    try reflexivity. discriminate.
Defined.

(** * Further properties of theme parsing *)

Lemma append_empty (s : string) : s ++ "" = s.
Proof. induction s as [| c s IH]; [reflexivity | cbn; now rewrite IH]. Qed.

Lemma append_assoc (a b c : string) : (a ++ b) ++ c = a ++ b ++ c.
Proof. induction a as [| x a IH]; [reflexivity | cbn; now rewrite IH]. Qed.

(** [s[n:]] *)
Fixpoint drop (n : nat) (s : string) : string :=
  match n, s with
  | S k, String _ r => drop k r
  | _, _ => s
  end.

(** [s] is empty or starts with a character that is not whitespace. *)
Definition starts_clean (s : string) : Prop :=
  not_space (first_char s) = true.

(** A match of [p] is never followed by whitespace. *)
Definition stops_at_text (p : list item) : Prop :=
  forall s m, match_items p s = Some m -> starts_clean (drop m s).

Lemma space_star_stops (k : string -> option nat) :
  (forall s, k s = Some 0) ->
  forall s m, match_star is_space k s = Some m -> starts_clean (drop m s).
Proof.
  intros Hk s. induction s as [| c r IH]; intros m H; cbn [match_star] in H.
  - rewrite Hk in H. inversion H. reflexivity.
  - destruct (is_space c) eqn:Ec.
    + destruct (match_star is_space k r) as [n |] eqn:E.
      * inversion H. cbn [drop]. now apply IH.
      * rewrite Hk in H. inversion H. cbn [drop].
        destruct r as [| c' r']; cbn [match_star] in E.
        -- now rewrite Hk in E.
        -- destruct (is_space c'); [| now rewrite Hk in E].
           destruct (match_star is_space k r'); [discriminate E |].
           now rewrite Hk in E.
    + rewrite Hk in H. inversion H. unfold starts_clean. cbn.
      now rewrite Ec.
Qed.

Lemma trailing_space_stops : stops_at_text [(Star, is_space)].
Proof.
  intros s m H. cbn [match_items] in H.
  now apply (space_star_stops (match_items [])) in H.
Qed.

Lemma match_star_stops cls (k : string -> option nat) :
  (forall s m, k s = Some m -> starts_clean (drop m s)) ->
  forall s m, match_star cls k s = Some m -> starts_clean (drop m s).
Proof.
  intros Hk s. induction s as [| c r IH]; intros m H; cbn [match_star] in H.
  - now apply Hk.
  - destruct (cls c); [| now apply Hk].
    destruct (match_star cls k r) as [n |] eqn:E; [| now apply Hk].
    cbn [option_map] in H. inversion H. cbn [drop]. now apply IH.
Qed.

Lemma one_stops cls p : stops_at_text p -> stops_at_text ((One, cls) :: p).
Proof.
  intros Hp s m H. destruct s as [| c r]; cbn [match_items] in H;
    [discriminate |].
  destruct (cls c); [| discriminate].
  destruct (match_items p r) as [n |] eqn:E; [| discriminate].
  cbn [option_map] in H. inversion H. cbn [drop]. now apply Hp.
Qed.

Lemma plus_stops cls p : stops_at_text p -> stops_at_text ((Plus, cls) :: p).
Proof.
  intros Hp s m H. destruct s as [| c r]; cbn [match_items] in H;
    [discriminate |].
  destruct (cls c); [| discriminate].
  destruct (match_star cls (match_items p) r) as [n |] eqn:E; [| discriminate].
  cbn [option_map] in H. inversion H. cbn [drop]. now apply (match_star_stops cls _ Hp).
Qed.

Lemma heading_stops : stops_at_text theme_heading.
Proof.
  unfold theme_heading, lit.
  repeat first [ apply one_stops | apply plus_stops ].
  apply trailing_space_stops.
Qed.

Lemma starts_clean_prefix (a b : string) :
  starts_clean (a ++ b) -> starts_clean a.
Proof.
  destruct a; [reflexivity | trivial].
Qed.

(** The segments of a split start with text, when the scan is at the
    start of a segment that does. *)
Lemma split_segments_start_clean (s : string) :
  forall skip cur,
    (skip = 0 /\ starts_clean (cur ++ s))
    \/ (cur = "" /\ starts_clean (drop skip s)) ->
    Forall starts_clean (split_from theme_heading skip cur s).
Proof.
  induction s as [| c r IH]; intros skip cur Hinv.
  - cbn [split_from]. apply Forall_cons; [| apply Forall_nil].
    destruct Hinv as [[_ H] | [-> _]]; [| reflexivity].
    now rewrite append_empty in H.
  - cbn [split_from]. destruct skip as [| k].
    + assert (starts_clean (cur ++ String c r)) as Hcur
          by (destruct Hinv as [[_ H] | [-> H]]; exact H).
      destruct (match_items theme_heading (String c r)) as [[| n] |] eqn:E.
      * apply IH. left. split; [reflexivity |].
        now rewrite append_assoc.
      * apply Forall_cons; [now apply starts_clean_prefix in Hcur |].
        apply IH. right. split; [reflexivity |].
        exact (heading_stops _ _ E).
      * apply IH. left. split; [reflexivity |].
        now rewrite append_assoc.
    + apply IH. destruct Hinv as [[Habs _] | [-> H]]; [discriminate |].
      right. split; [reflexivity | exact H].
Qed.

Lemma clean_theme_keeps_text (segment : string) :
  nonempty segment = true -> starts_clean segment ->
  nonempty (clean_theme segment) = true.
Proof.
  destruct segment as [| c r]; [discriminate |]. intros _ Hc.
  unfold starts_clean in Hc. cbn in Hc. apply negb_true_iff in Hc.
  unfold clean_theme. rewrite replace_single.
  - unfold strip. cbn [lstrip]. rewrite Hc. cbn [rstrip].
    destruct (rstrip (replace (NL ++ NL) NL r)); [now rewrite Hc | reflexivity].
  - rewrite startswith_pair, Ascii.eqb_sym, (space_not_newline c Hc).
    reflexivity.
Qed.

Lemma parse_themes_not_empty_strings (raw_response : string) :
  starts_clean raw_response ->
  Forall (fun theme => nonempty theme = true /\ trimmed theme = true)
         (parse_themes raw_response).
Proof.
  intro Hraw. unfold parse_themes, re_split.
  pose proof (split_segments_start_clean raw_response 0 ""
                (or_introl (conj eq_refl Hraw))) as Hsegs.
  assert (forall l, Forall starts_clean l ->
            Forall (fun theme => nonempty theme = true /\ trimmed theme = true)
                   (map clean_theme (filter nonempty l))) as Hclean.
  { intros l Hl. apply Forall_forall. intros theme Hin.
    apply in_map_iff in Hin. destruct Hin as [seg [<- Hseg]].
    apply filter_In in Hseg. destruct Hseg as [Hseg Hne].
    rewrite Forall_forall in Hl. split.
    - apply clean_theme_keeps_text; [exact Hne | now apply Hl].
    - apply strip_trimmed. }
  destruct (split_from theme_heading 0 "" raw_response) as [| t0 rest];
    [now apply Hclean |].
  destruct (negb (nonempty (strip t0))); apply Hclean; [| exact Hsegs].
  now inversion Hsegs.
Qed.

Lemma contains_star_cons c r :
  contains "*" (String c r) = Ascii.eqb "*" c || contains "*" r.
Proof.
  cbn [contains startswith]. now rewrite andb_true_r.
Qed.

Lemma no_star_lstrip s : contains "*" s = false -> contains "*" (lstrip s) = false.
Proof.
  induction s as [| c r IH]; [trivial |]. intro H. cbn [lstrip].
  destruct (is_space c); [| exact H].
  rewrite contains_star_cons in H. apply orb_false_iff in H. now apply IH.
Qed.

Lemma no_star_rstrip s : contains "*" s = false -> contains "*" (rstrip s) = false.
Proof.
  induction s as [| c r IH]; [trivial |]. intro H.
  rewrite contains_star_cons in H. apply orb_false_iff in H.
  destruct H as [Hc Hr]. cbn [rstrip].
  destruct (rstrip r) as [| a b] eqn:E.
  - destruct (is_space c); [reflexivity |].
    rewrite contains_star_cons, Hc. reflexivity.
  - rewrite contains_star_cons, Hc. now apply IH.
Qed.

Lemma lstrip_clean s : starts_clean s -> lstrip s = s.
Proof.
  destruct s as [| c r]; [reflexivity |]. unfold starts_clean. cbn.
  intro H. apply negb_true_iff in H. now rewrite H.
Qed.

Lemma rstrip_clean s : not_space (last_char s) = true -> rstrip s = s.
Proof.
  induction s as [| c r IH]; [reflexivity |]. intro H.
  cbn [rstrip]. destruct r as [| c' r'].
  - cbn in H. apply negb_true_iff in H. cbn. now rewrite H.
  - rewrite IH by exact H. reflexivity.
Qed.

Lemma strip_strip s : strip (strip s) = strip s.
Proof.
  unfold strip at 1.
  rewrite lstrip_clean by (unfold strip; apply rstrip_first, lstrip_first).
  apply rstrip_clean. unfold strip. apply rstrip_last.
Qed.

Lemma split_without_star (s : string) :
  contains "*" s = false ->
  forall cur, split_from theme_heading 0 cur s = [cur ++ s].
Proof.
  induction s as [| c r IH]; intros H cur.
  - cbn. now rewrite append_empty.
  - rewrite contains_star_cons in H. apply orb_false_iff in H.
    destruct H as [Hc Hr]. cbn [split_from].
    assert (match_items theme_heading (String c r) = None) as ->
        by (unfold theme_heading, lit; cbn [match_items]; now rewrite Hc).
    rewrite (IH Hr). now rewrite append_assoc.
Qed.

(** X12 -- a completion text without any star, hence without a heading,
    is returned whole as one theme, cleaned; both entry points return it
    and print nothing. *)
Theorem text_without_heading_is_one_theme
        (content : string) (settings : Settings) (event_idea : string)
        (w : World) :
  contains "*" content = false ->
  nonempty (strip content) = true ->
  parse_themes (strip content) = [clean_theme (strip content)]
  /\ _generate_themes settings (answers content) event_idea w
     = (Ok [clean_theme (strip content)], w)
  /\ EventPlanningWorkflow.generate_event_themes
       settings (answers content) event_idea w
     = (Ok [clean_theme (strip content)], w).
Proof.
  intros Hstar Hblank.
  assert (parse_themes (strip content) = [clean_theme (strip content)])
    as Hparse.
  { unfold parse_themes, re_split.
    rewrite split_without_star
      by (unfold strip; now apply no_star_rstrip, no_star_lstrip).
    cbn [append]. rewrite strip_strip, Hblank. cbn [negb filter].
    rewrite Hblank. reflexivity. }
  assert (response_text (chat_response content) = Ok (strip content)) as Hresp.
  { destruct content as [| c r]; [discriminate Hblank | reflexivity]. }
  split; [exact Hparse |].
  split;
    unfold _generate_themes, EventPlanningWorkflow.generate_event_themes,
      try_except, bind, call_completion, lift, answers;
    cbn beta iota; rewrite Hresp; cbn beta iota; rewrite Hparse; reflexivity.
Qed.

Lemma text_without_heading_is_one_theme_witness :
  _generate_themes local_settings (answers " A picnic with games. ")
    "pickle ball event" fresh_world
  = (Ok ["A picnic with games."], fresh_world).
Proof.
  destruct (text_without_heading_is_one_theme " A picnic with games. "
              local_settings "pickle ball event" fresh_world)
    as [_ [Hone _]]; [reflexivity | reflexivity | exact Hone].
Defined.

Lemma fallback_themes_not_empty e :
  Forall (fun theme => nonempty theme = true) (fallback_themes e).
Proof.
  unfold fallback_themes. repeat (apply Forall_cons; [reflexivity |]).
  apply Forall_nil.
Qed.

Lemma response_text_starts_clean response raw_response :
  response_text response = Ok raw_response -> starts_clean raw_response.
Proof.
  intro H. apply response_text_is_strip in H.
  destruct H as [content [_ ->]].
  unfold strip. apply rstrip_first, lstrip_first.
Qed.

(** X13 -- whatever the completion service does, both theme functions
    return normally a list that is not empty and holds no empty string. *)
Theorem themes_are_always_usable
        (settings : Settings)
        (completion : string -> string -> string -> string -> result pyvalue)
        (event_idea : string) (w : World) :
  (exists themes,
     fst (_generate_themes settings completion event_idea w) = Ok themes
     /\ themes <> []
     /\ Forall (fun theme => nonempty theme = true) themes)
  /\ (exists themes,
        fst (EventPlanningWorkflow.generate_event_themes
               settings completion event_idea w) = Ok themes
        /\ themes <> []
        /\ Forall (fun theme => nonempty theme = true) themes).
Proof.
  assert (forall raw t ts, starts_clean raw -> parse_themes raw = t :: ts ->
            Forall (fun theme => nonempty theme = true) (t :: ts)) as Hparsed.
  { intros raw t ts Hraw Hp. rewrite <- Hp.
    eapply Forall_impl; [| exact (parse_themes_not_empty_strings raw Hraw)].
    cbn beta. now intros theme [H _]. }
  split; run_llm;
    destruct (completion (model_name settings) (themes_prompt event_idea)
                (nim_base_url settings) (nim_api_key settings))
      as [response | e]; simpl;
    try (eexists; split; [reflexivity |];
         split; [discriminate |];
         first [ apply fallback_themes_not_empty
               | apply Forall_cons; [reflexivity | apply Forall_nil] ]);
    destruct (response_text response) as [raw | e] eqn:Hresp; simpl;
    try (eexists; split; [reflexivity |];
         split; [discriminate |];
         first [ apply fallback_themes_not_empty
               | apply Forall_cons; [reflexivity | apply Forall_nil] ]);
    destruct (parse_themes raw) as [| t ts] eqn:Hp; simpl;
    eexists; (split; [reflexivity |]); (split; [discriminate |]);
    first [ apply fallback_themes_not_empty
          | apply (Hparsed raw t ts (response_text_starts_clean _ _ Hresp) Hp)
          | apply Forall_cons; [reflexivity | apply Forall_nil] ].
Qed.

(** X14 -- the themes parsed from the text of an accepted response are
    never empty and never start or end with whitespace. *)
Theorem parsed_themes_are_trimmed_text
        (response : pyvalue) (raw_response : string) :
  response_text response = Ok raw_response ->
  Forall (fun theme => nonempty theme = true /\ trimmed theme = true)
         (parse_themes raw_response).
Proof.
  intro H. apply parse_themes_not_empty_strings.
  exact (response_text_starts_clean _ _ H).
Qed.

Lemma parsed_themes_are_trimmed_text_witness :
  Forall (fun theme => nonempty theme = true /\ trimmed theme = true)
         (parse_themes two_titles).
Proof.
  apply (parsed_themes_are_trimmed_text (chat_response two_titles)).
  reflexivity.
Defined.

(** * Further properties of plan refinement *)

Lemma startswith_append (s t : string) : startswith s (s ++ t) = true.
Proof.
  induction s as [| c s IH]; [destruct t; reflexivity |].
  cbn. now rewrite Ascii.eqb_refl.
Qed.

Lemma startswith_common (a b c : string) :
  startswith (a ++ b) (a ++ c) = startswith b c.
Proof.
  induction a as [| x a IH]; [reflexivity |].
  cbn. now rewrite Ascii.eqb_refl.
Qed.

Ltac find_text :=
  repeat first
    [ apply contains_here; apply startswith_append
    | apply contains_here; rewrite startswith_common; cbn;
      apply startswith_append
    | apply contains_here; reflexivity
    | apply contains_after ].

(** The attempt of a plan fails: the call raises, or the response does
    not pass the checks. *)
Definition plan_failure (outcome : result pyvalue) (e : exn) : Prop :=
  outcome = Raise e
  \/ exists response, outcome = Ok response /\ response_text response = Raise e.

(** The moderator entry has the two keys that the prompt reads. *)
Definition has_name_and_city (moderator : list (string * string)) : bool :=
  match lookup "name" moderator, lookup "city" moderator with
  | Some _, Some _ => true
  | _, _ => false
  end.

(** X15 -- when the attempt of a plan fails, [_refine_plan] returns
    normally the error document, printed error first; the document names
    the theme, the location, the dates as "start to end" and the text of
    the error. *)
Theorem refine_plan_degrades
        (settings : Settings)
        (completion : string -> string -> string -> string -> result pyvalue)
        (input_data : EventPlanInput) (w : World) (prompt : string) (e : exn) :
  refine_prompt input_data = Ok prompt ->
  plan_failure (completion (model_name settings) prompt
                           (nim_base_url settings) (nim_api_key settings)) e ->
  let plan := error_plan settings input_data e in
  _refine_plan settings completion input_data w
  = (Ok plan,
     snd (print (ErrorRefiningPlan e) w))
  /\ contains (selected_theme input_data) plan = true
  /\ contains (location input_data) plan = true
  /\ contains (start_date input_data ++ " to " ++ end_date input_data) plan
     = true
  /\ contains (str_of_exn e) plan = true.
Proof.
  intros Hprompt Hfail plan. subst plan. split.
  - unfold _refine_plan, try_except, bind, call_completion, lift, is_Exception.
    rewrite Hprompt. cbn beta iota.
    destruct Hfail as [-> | [response [-> Hresp]]]; cbn beta iota.
    + reflexivity.
    + rewrite Hresp. reflexivity.
  - unfold error_plan. repeat split; find_text.
Qed.

Lemma refine_plan_degrades_witness :
  fst (_refine_plan local_settings times_out conference fresh_world)
  = Ok (error_plan local_settings conference
          (OtherException "Timeout" "Request timed out."))
  /\ contains "24-01-2025 to 25-01-2025"
       (error_plan local_settings conference
          (OtherException "Timeout" "Request timed out.")) = true.
Proof.
  destruct (refine_plan_degrades local_settings times_out conference fresh_world
              (multi_day_prompt conference
                 "The moderators for this event are: Jai Kumar from Hyderabad with expertise in events.")
              (OtherException "Timeout" "Request timed out."))
    as [Hplan [_ [_ [Hdates _]]]].
  - reflexivity.
  - left. reflexivity.
  - split; [now rewrite Hplan | exact Hdates].
Defined.

Lemma moderator_descriptions_ok (mods : list (list (string * string))) :
  forallb has_name_and_city mods = true ->
  exists ds, moderator_descriptions mods = Ok ds.
Proof.
  induction mods as [| m mods IH]; intro H; [now exists [] |].
  cbn [forallb] in H. apply andb_true_iff in H. destruct H as [Hm Hmods].
  destruct (IH Hmods) as [ds Hds].
  unfold has_name_and_city in Hm.
  cbn [moderator_descriptions]. unfold moderator_description, getitem.
  destruct (lookup "name" m); [| discriminate Hm].
  destruct (lookup "city" m); [| discriminate Hm].
  cbn [rbind]. rewrite Hds. cbn [rbind]. eexists. reflexivity.
Qed.

Lemma moderator_descriptions_key_error (mods : list (list (string * string))) :
  forallb has_name_and_city mods = false ->
  exists key, (key = "name" \/ key = "city")
              /\ moderator_descriptions mods = Raise (KeyError (repr key)).
Proof.
  induction mods as [| m mods IH]; intro H; [discriminate H |].
  cbn [forallb] in H. cbn [moderator_descriptions].
  unfold moderator_description, getitem.
  unfold has_name_and_city in H.
  destruct (lookup "name" m) as [name |];
    [| exists "name"; split; [now left | reflexivity]].
  destruct (lookup "city" m) as [city |];
    [| exists "city"; split; [now right | reflexivity]].
  cbn [andb] in H. destruct (IH H) as [key [Hkey Hraise]].
  exists key. split; [exact Hkey |].
  cbn [rbind]. rewrite Hraise. reflexivity.
Qed.

(** X16 -- the moderator entries decide whether [_refine_plan] returns:
    when each has a name and a city it returns normally whatever the
    completion service does; when one lacks either, KeyError for that key
    leaves the function before the service is called, with nothing
    printed. *)
Theorem refine_plan_needs_name_and_city
        (settings : Settings)
        (completion : string -> string -> string -> string -> result pyvalue)
        (input_data : EventPlanInput) (w : World) :
  (forallb has_name_and_city (input_moderators input_data) = true ->
   exists plan,
     fst (_refine_plan settings completion input_data w) = Ok plan)
  /\ (forallb has_name_and_city (input_moderators input_data) = false ->
      exists key,
        (key = "name" \/ key = "city")
        /\ forall service,
             _refine_plan settings service input_data w
             = (Raise (KeyError (repr key)), w)).
Proof.
  split; intro H.
  - destruct (moderator_descriptions_ok _ H) as [ds Hds].
    unfold _refine_plan, refine_prompt, moderators_str, try_except, bind,
      call_completion, lift, is_Exception.
    rewrite Hds. cbn beta iota delta [rbind].
    destruct (completion _ _ _ _) as [response | e]; cbn beta iota;
      [| eexists; reflexivity].
    destruct (response_text response) as [raw | e]; eexists; reflexivity.
  - destruct (moderator_descriptions_key_error _ H) as [key [Hkey Hraise]].
    exists key. split; [exact Hkey |]. intro service.
    unfold _refine_plan, refine_prompt, moderators_str, bind, lift.
    rewrite Hraise. reflexivity.
Qed.

Definition nameless_city : EventPlanInput :=
  {| selected_theme := "Rally of Ideas"; start_date := "24-01-2025";
     end_date := "24-01-2025"; start_time := "11:00 AM";
     end_time := "5:00 PM"; location := "HYDERABAD";
     event_type := "Technical Conference";
     input_moderators := [[("name", "Jai Kumar")]] |}.

Lemma refine_plan_needs_name_and_city_witness :
  exists key,
    (key = "name" \/ key = "city")
    /\ _refine_plan local_settings (answers "Agenda") nameless_city fresh_world
       = (Raise (KeyError (repr key)), fresh_world).
Proof.
  destruct (refine_plan_needs_name_and_city local_settings (answers "Agenda")
              nameless_city fresh_world) as [_ Hmissing].
  destruct (Hmissing eq_refl) as [key [Hkey Hraise]].
  exists key. split; [exact Hkey | apply Hraise].
Defined.

(** * Further properties of the standalone planning method *)

Definition with_stdout (w : World) (out : list printed) : World :=
  {| store := store w; open_conns := open_conns w; next_conn := next_conn w;
     stdout := out; now := now w;
     max_variable_number := max_variable_number w;
     index_chosen := index_chosen w |}.

Lemma print_lines_out (l : list string) (w : World) :
  EventPlanningWorkflow.print_lines l w
  = (Ok tt, with_stdout w (stdout w ++ map Line l)%list).
Proof.
  revert w. induction l as [| x l IH]; intro w.
  - cbn. unfold ret, with_stdout. rewrite app_nil_r. now destruct w.
  - cbn [EventPlanningWorkflow.print_lines map]. unfold bind, print.
    rewrite IH. unfold with_stdout. cbn. now rewrite <- app_assoc.
Qed.

(** The lines of the participants section, if any is printed. *)
Definition participants_section
           (participants : option (list (list (string * string))))
  : list string :=
  match participants with
  | Some ((_ :: _) as ps) =>
      ([EventPlanningWorkflow.banner; "EVENT PARTICIPANTS";
        EventPlanningWorkflow.banner]
       ++ map (fun p => ("- " ++ dict_get p "name" "Unknown" ++ " ("
                         ++ dict_get p "email" "N/A" ++ ")")%string) ps
       ++ [(EventPlanningWorkflow.banner ++ NL)%string])%list
  | _ => []
  end.

Lemma start_event_planning_runs
      (settings : Settings)
      (completion : string -> string -> string -> string -> result pyvalue)
      (theme : string) (details : list (string * string))
      (mods : list (list (string * string)))
      (participants : option (list (list (string * string))))
      (w : World) (prompt : string) :
  EventPlanningWorkflow.planning_prompt theme details mods = Ok prompt ->
  let attempt :=
    rbind (completion (model_name settings) prompt (nim_base_url settings)
                      (nim_api_key settings)) response_text in
  let plan :=
    match attempt with
    | Ok text => text
    | Raise e => "Error generating plan: " ++ str_of_exn e ++ NL
                 ++ "Please check your LLM configuration."
    end in
  EventPlanningWorkflow.start_event_planning settings completion theme details
    mods participants w
  = (Ok plan,
     with_stdout w
       (stdout w
        ++ match attempt with
           | Ok _ => []
           | Raise e => [ErrorGeneratingPlan e]
           end
        ++ map Line ([(NL ++ EventPlanningWorkflow.banner)%string;
                      "REFINED EVENT PLAN";
                      EventPlanningWorkflow.banner; plan;
                      (EventPlanningWorkflow.banner ++ NL)%string]
                     ++ participants_section participants))%list).
Proof.
  intros Hprompt attempt plan. subst attempt plan.
  unfold EventPlanningWorkflow.start_event_planning, bind at 1, lift at 1.
  rewrite Hprompt.
  unfold try_except, bind at 1, call_completion, lift, is_Exception, rbind.
  destruct (completion _ _ _ _) as [response | e];
    unfold bind, print, ret; cbn beta iota;
    [destruct (response_text response) as [text | e]; cbn beta iota |];
    rewrite !print_lines_out;
    cbn beta iota;
    (destruct participants as [[| p ps] |]; cbn beta iota;
     rewrite ?print_lines_out; cbn beta iota; rewrite ?print_lines_out;
     cbn beta iota; rewrite ?print_lines_out;
     unfold with_stdout, participants_section; cbn [stdout store open_conns
       next_conn now]; f_equal; f_equal;
     rewrite ?map_app, <- ?app_assoc; cbn [map app]; rewrite ?app_nil_r;
     reflexivity).
Qed.

(** X17 -- once its prompt can be built, [start_event_planning] returns
    normally, leaves the database alone and has printed the plan it
    returns; when the attempt fails that plan is the line "Error
    generating plan: " with the error text, then "Please check your LLM
    configuration.", and the error was printed too. *)
Theorem start_event_planning_returns_printed_plan
        (settings : Settings)
        (completion : string -> string -> string -> string -> result pyvalue)
        (theme : string) (details : list (string * string))
        (mods : list (list (string * string)))
        (participants : option (list (list (string * string))))
        (w : World) (prompt : string) :
  EventPlanningWorkflow.planning_prompt theme details mods = Ok prompt ->
  let after :=
    EventPlanningWorkflow.start_event_planning settings completion theme
      details mods participants w in
  exists plan,
    fst after = Ok plan
    /\ store (snd after) = store w
    /\ In (Line plan) (stdout (snd after))
    /\ forall e,
         plan_failure (completion (model_name settings) prompt
                         (nim_base_url settings) (nim_api_key settings)) e ->
         plan = "Error generating plan: " ++ str_of_exn e ++ NL
                ++ "Please check your LLM configuration."
         /\ In (ErrorGeneratingPlan e) (stdout (snd after)).
Proof.
  intros Hprompt after. subst after.
  rewrite (start_event_planning_runs settings completion theme details mods
             participants w prompt Hprompt).
  eexists. split; [reflexivity |]. split; [reflexivity |].
  cbn [snd with_stdout stdout]. split.
  - apply in_or_app. right. apply in_or_app. right.
    cbn [map app]. right. right. right. left. reflexivity.
  - intros e [Hcall | [response [Hcall Hresp]]]; rewrite Hcall;
      cbn [rbind]; rewrite ?Hresp;
      (split; [reflexivity |]);
      apply in_or_app; right; left; reflexivity.
Qed.

Lemma start_event_planning_returns_printed_plan_witness :
  fst (EventPlanningWorkflow.start_event_planning local_settings times_out
         "Rally of Ideas" conference_details [] None fresh_world)
  = Ok ("Error generating plan: Request timed out." ++ NL
        ++ "Please check your LLM configuration.").
Proof.
  destruct (start_event_planning_returns_printed_plan local_settings times_out
              "Rally of Ideas" conference_details [] None fresh_world
              (EventPlanningWorkflow.standalone_multi_day_prompt
                 "Rally of Ideas" "11:00 AM" "5:00 PM" "24-01-2025"
                 "25-01-2025" "Technical Conference" "HYDERABAD"
                 "No specific moderators provided.") eq_refl)
    as [plan [Hplan [_ [_ Hfail]]]].
  destruct (Hfail (OtherException "Timeout" "Request timed out."))
    as [Hform _]; [left; reflexivity |].
  rewrite Hplan, Hform. reflexivity.
Defined.

(** The keys of [event_details] that the prompt reads. *)
Definition detail_keys : list string :=
  ["start_date"; "end_date"; "start_time"; "end_time"; "event_type";
   "location"].

Definition has_key (d : list (string * string)) (key : string) : bool :=
  match lookup key d with
  | Some _ => true
  | None => false
  end.

(** X18 -- with moderators that have a name and a city, the event details
    decide whether [start_event_planning] returns: with the six keys the
    prompt is built; with one missing, KeyError for one of the six leaves
    the function before the service is called, with nothing printed. *)
Theorem start_event_planning_needs_details
        (settings : Settings) (theme : string)
        (details : list (string * string))
        (mods : list (list (string * string))) (w : World) :
  forallb has_name_and_city mods = true ->
  (forallb (has_key details) detail_keys = true ->
   exists prompt,
     EventPlanningWorkflow.planning_prompt theme details mods = Ok prompt)
  /\ (forallb (has_key details) detail_keys = false ->
      exists key,
        In key detail_keys
        /\ forall service participants,
             EventPlanningWorkflow.start_event_planning settings service theme
               details mods participants w
             = (Raise (KeyError (repr key)), w)).
Proof.
  intro Hmods. destruct (moderator_descriptions_ok _ Hmods) as [ds Hds].
  unfold detail_keys, has_key. cbn [forallb].
  split; intro H.
  - unfold EventPlanningWorkflow.planning_prompt, moderators_str, getitem.
    rewrite Hds. cbn [rbind].
    destruct (lookup "start_date" details); [| discriminate H].
    destruct (lookup "end_date" details); [| discriminate H].
    destruct (lookup "start_time" details); [| discriminate H].
    destruct (lookup "end_time" details); [| discriminate H].
    destruct (lookup "event_type" details); [| discriminate H].
    destruct (lookup "location" details); [| discriminate H].
    cbn [rbind]. destruct (String.eqb _ _); cbn [rbind]; eexists; reflexivity.
  - assert (exists key, In key detail_keys
              /\ EventPlanningWorkflow.planning_prompt theme details mods
                 = Raise (KeyError (repr key))) as [key [Hkey Hraise]].
    { unfold EventPlanningWorkflow.planning_prompt, moderators_str, getitem.
      rewrite Hds. cbn [rbind]. unfold detail_keys.
      destruct (lookup "start_date" details) as [sd |];
        [| exists "start_date"; split; [cbn; tauto | reflexivity]].
      destruct (lookup "end_date" details) as [ed |];
        [| exists "end_date"; split; [cbn; tauto | reflexivity]].
      cbn [rbind].
      destruct (lookup "start_time" details) as [st |];
        [| exists "start_time"; split;
           [cbn; tauto | destruct (String.eqb sd ed); reflexivity]].
      destruct (lookup "end_time" details) as [et |];
        [| exists "end_time"; split;
           [cbn; tauto | destruct (String.eqb sd ed); reflexivity]].
      destruct (lookup "event_type" details) as [ty |];
        [| exists "event_type"; split;
           [cbn; tauto | destruct (String.eqb sd ed); reflexivity]].
      destruct (lookup "location" details) as [loc |];
        [discriminate H
        | exists "location"; split;
          [cbn; tauto | destruct (String.eqb sd ed); reflexivity]]. }
    exists key. split; [exact Hkey |]. intros service participants.
    unfold EventPlanningWorkflow.start_event_planning, bind at 1, lift at 1.
    rewrite Hraise. reflexivity.
Qed.

Lemma start_event_planning_needs_details_witness :
  exists key,
    In key detail_keys
    /\ EventPlanningWorkflow.start_event_planning local_settings
         (answers "Agenda") "Rally of Ideas"
         [("start_date", "24-01-2025"); ("end_date", "24-01-2025")] [] None
         fresh_world
       = (Raise (KeyError (repr key)), fresh_world).
Proof.
  destruct (start_event_planning_needs_details local_settings "Rally of Ideas"
              [("start_date", "24-01-2025"); ("end_date", "24-01-2025")] []
              fresh_world eq_refl) as [_ Hmissing].
  destruct (Hmissing eq_refl) as [key [Hkey Hraise]].
  exists key. split; [exact Hkey | apply Hraise].
Defined.

(** * The rest of [db_setup.py]: creating and seeding the database

    The lines that these functions print are [Line]s; a check mark, which
    is no code point below 256, stands in them as its UTF-8 bytes.  What
    the file system and the terminal answer is given to the functions:
    [file_exists] is the value of [Path(db_path).exists()], [answer] the
    line that [input] returns, [unlink_error] the exception that
    [db_file.unlink()] raises, if it raises one, and [can_open] whether
    [sqlite3.connect(db_path)] can open or create the file. *)

Module setup.

(** [c.lower()] for a code point below 256. *)
Definition lower_char (c : ascii) : ascii :=
  let n := nat_of_ascii c in
  if (((65 <=? n) && (n <=? 90))
      || ((192 <=? n) && (n <=? 222) && negb (n =? 215)))%nat
  then ascii_of_nat (n + 32)
  else c.

(** [s.lower()] *)
Fixpoint lower (s : string) : string :=
  match s with
  | EmptyString => EmptyString
  | String c r => String (lower_char c) (lower r)
  end.

(** [db_file.unlink()]: the file, and with it both tables, is gone,
    unless the file system refuses. *)
Definition unlink (unlink_error : option exn) : M unit :=
  match unlink_error with
  | Some e => raise e
  | None =>
      fun w =>
        (Ok tt, set_store w {| moderators := None; participants := None |})
  end.

(** [sqlite3.connect(db_path)] on a path that may not be openable. *)
Definition connect_path (can_open : bool) : M nat :=
  if can_open then sqlite3.connect
  else raise (OperationalError "unable to open database file").

Definition empty_table {R : Type} : table R :=
  {| rows := []; seq := 0; name_index := false |}.

(** [CREATE TABLE IF NOT EXISTS moderators (...)] *)
Definition create_moderators (conn : nat) : M unit :=
  sqlite3.with_open conn (fun w =>
    (Ok tt,
     set_store w
       {| moderators := match moderators (store w) with
                        | Some t => Some t
                        | None => Some empty_table
                        end;
          participants := participants (store w) |})).

(** [CREATE TABLE IF NOT EXISTS participants (...)] *)
Definition create_participants (conn : nat) : M unit :=
  sqlite3.with_open conn (fun w =>
    (Ok tt,
     set_store w
       {| moderators := moderators (store w);
          participants := match participants (store w) with
                          | Some t => Some t
                          | None => Some empty_table
                          end |})).

(** The four indexes of the script. *)
Inductive index : Type :=
| idx_moderators_name
| idx_moderators_expertise
| idx_participants_name
| idx_participants_email.

Definition indexed {R : Type} (t : table R) : table R :=
  {| rows := rows t; seq := seq t; name_index := true |}.

(** [CREATE INDEX IF NOT EXISTS ... ON table(column)]: an index changes no
    row; the index on a name column is the one from which the filtered
    queries can be answered from then on.  The table has to exist. *)
Definition create_index (conn : nat) (i : index) : M unit :=
  sqlite3.with_open conn (fun w =>
    match i with
    | idx_moderators_name =>
        match moderators (store w) with
        | Some t =>
            (Ok tt,
             set_store w {| moderators := Some (indexed t);
                            participants := participants (store w) |})
        | None =>
            (Raise (OperationalError "no such table: main.moderators"), w)
        end
    | idx_moderators_expertise =>
        match moderators (store w) with
        | Some t => (Ok tt, w)
        | None =>
            (Raise (OperationalError "no such table: main.moderators"), w)
        end
    | idx_participants_name =>
        match participants (store w) with
        | Some t =>
            (Ok tt,
             set_store w {| moderators := moderators (store w);
                            participants := Some (indexed t) |})
        | None =>
            (Raise (OperationalError "no such table: main.participants"), w)
        end
    | idx_participants_email =>
        match participants (store w) with
        | Some t => (Ok tt, w)
        | None =>
            (Raise (OperationalError "no such table: main.participants"), w)
        end
    end).

Definition create_database (db_path : string) (file_exists : bool)
           (answer : string) (unlink_error : option exn) (can_open : bool)
  : M unit :=
  proceed <-
    (if file_exists then
       print (Line ("Database already exists at: " ++ db_path)) ;;;
       print (Line "Do you want to recreate it? (yes/no): ") ;;;
       let response := lower (strip answer) in
       if negb (String.eqb response "yes") then
         print (Line "Keeping existing database.") ;;; ret false
       else
         unlink unlink_error ;;;
         print (Line "Deleted existing database.") ;;; ret true
     else ret true) ;;
  if proceed : bool then
    conn <- connect_path can_open ;;
    print (Line ("Creating database at: " ++ db_path)) ;;;
    create_moderators conn ;;;
    print (Line "✓ Created 'moderators' table") ;;;
    create_participants conn ;;;
    print (Line "✓ Created 'participants' table") ;;;
    create_index conn idx_moderators_name ;;;
    create_index conn idx_moderators_expertise ;;;
    create_index conn idx_participants_name ;;;
    create_index conn idx_participants_email ;;;
    print (Line "✓ Created indexes") ;;;
    sqlite3.commit conn ;;;
    sqlite3.close conn ;;;
    print (Line (NL ++ "✅ Database created successfully at: " ++ db_path))
  else ret tt.

Definition sample_moderators
  : list (string * string * string * string * string * string) :=
  [("Jai Kumar", "Hyderabad",
    "Experienced technical event moderator with 10+ years",
    "jai.kumar@example.com", "+91-9876543210",
    "Technical, AI/ML, Cloud Computing");
   ("Priya Sharma", "Bangalore",
    "Expert in corporate events and team building activities",
    "priya.sharma@example.com", "+91-9876543211",
    "Corporate, Team Building, Leadership");
   ("Rahul Verma", "Mumbai", "Specialist in tech conferences and workshops",
    "rahul.verma@example.com", "+91-9876543212",
    "Conferences, Workshops, Technology");
   ("Anita Desai", "Delhi",
    "Professional moderator for academic and research events",
    "anita.desai@example.com", "+91-9876543213",
    "Academic, Research, Science");
   ("Vikram Singh", "Chennai",
    "Creative events and cultural program coordinator",
    "vikram.singh@example.com", "+91-9876543214",
    "Cultural, Creative, Entertainment")].

Definition sample_participants
  : list (string * string * string * string * string) :=
  [("Alice Smith", "alice.smith@techcorp.com", "TechCorp",
    "Software Engineer", "+1-555-0101");
   ("Bob Johnson", "bob.johnson@innovate.com", "Innovate Inc",
    "Product Manager", "+1-555-0102");
   ("Carol White", "carol.white@datalytics.com", "DataLytics",
    "Data Scientist", "+1-555-0103");
   ("David Brown", "david.brown@cloudnet.com", "CloudNet", "DevOps Engineer",
    "+1-555-0104");
   ("Emma Davis", "emma.davis@aitech.com", "AI Tech", "ML Engineer",
    "+1-555-0105");
   ("Frank Miller", "frank.miller@startup.io", "StartupIO", "CTO",
    "+1-555-0106");
   ("Grace Lee", "grace.lee@enterprise.com", "Enterprise Co", "Architect",
    "+1-555-0107");
   ("Henry Wilson", "henry.wilson@solutions.com", "Solutions Ltd",
    "Consultant", "+1-555-0108");
   ("Iris Taylor", "iris.taylor@innovation.com", "Innovation Labs",
    "Researcher", "+1-555-0109");
   ("Jack Anderson", "jack.anderson@digital.com", "Digital Corp", "Team Lead",
    "+1-555-0110")].

(** [cursor.executemany(INSERT INTO moderators ..., rows)]: one insert
    per tuple, in order, up to the first that raises. *)
Fixpoint executemany_moderators (conn : nat)
         (l : list (string * string * string * string * string * string))
  : M unit :=
  match l with
  | [] => ret tt
  | (name, city, description, email, phone, expertise) :: r =>
      sqlite3.insert_moderator conn name (Some city) (Some description)
        (Some email) (Some phone) (Some expertise) ;;;
      executemany_moderators conn r
  end.

Fixpoint executemany_participants (conn : nat)
         (l : list (string * string * string * string * string)) : M unit :=
  match l with
  | [] => ret tt
  | (name, email, company, role, phone) :: r =>
      sqlite3.insert_participant conn name email (Some company) (Some role)
        (Some phone) ;;;
      executemany_participants conn r
  end.

(** The statements of a connection reach the database file with its
    [commit]: when [body], which ends in the commit, is left by an
    exception, the file keeps the content it had. *)
Definition until_commit {A : Type} (body : M A) : M A :=
  fun w =>
    match body w with
    | (Ok a, w') => (Ok a, w')
    | (Raise e, w') => (Raise e, set_store w' (store w))
    end.

Definition seed_sample_data : M unit :=
  conn <- sqlite3.connect ;;
  until_commit
    (print (Line (NL ++ "Seeding sample data...")) ;;;
     executemany_moderators conn sample_moderators ;;;
     print (Line "✓ Added 5 sample moderators") ;;;
     executemany_participants conn sample_participants ;;;
     print (Line "✓ Added 10 sample participants") ;;;
     sqlite3.commit conn) ;;;
  sqlite3.close conn ;;;
  print (Line (NL ++ "✅ Sample data seeded successfully!")).

End setup.

(** * Properties of creating and seeding *)

Definition no_tables : Store := {| moderators := None; participants := None |}.

(** Both tables as the script creates them: without rows, with their
    indexes. *)
Definition empty_tables : Store :=
  {| moderators := Some (setup.indexed setup.empty_table);
     participants := Some (setup.indexed setup.empty_table) |}.

Ltac run_setup :=
  unfold setup.create_database, setup.seed_sample_data, setup.until_commit,
    setup.create_moderators, setup.create_participants, setup.create_index,
    setup.unlink, setup.connect_path, bind, raise, sqlite3.commit,
    sqlite3.with_open, sqlite3.is_open, sqlite3.connect, sqlite3.close,
    print, ret, set_store;
  simpl; repeat (rewrite Nat.eqb_refl; simpl).

Lemma fetch_on_empty_tables (w : World) :
  store w = empty_tables ->
  fst (DatabaseManager.fetch_moderators_from_db None w) = Ok []
  /\ fst (DatabaseManager.fetch_participants_from_db None None w) = Ok []
  /\ stdout (snd (DatabaseManager.fetch_moderators_from_db None w)) = stdout w
  /\ stdout (snd (DatabaseManager.fetch_participants_from_db None None w))
     = stdout w.
Proof.
  intro H. run_db. rewrite H. simpl. rewrite ?Nat.eqb_refl. simpl.
  repeat split.
Qed.

(** X19 -- asked about a database that exists, any answer other than
    "yes" (in any case, surrounding whitespace apart) keeps it:
    [create_database] opens no connection, changes nothing and prints the
    three lines of the dialogue, whatever the file system would have
    answered to a deletion or an opening. *)
Theorem create_database_keeps_on_other_answers
        (db_path answer : string) (unlink_error : option exn)
        (can_open : bool) (w : World) :
  setup.lower (strip answer) <> "yes" ->
  setup.create_database db_path true answer unlink_error can_open w
  = (Ok tt,
     with_stdout w
       (stdout w
        ++ [Line ("Database already exists at: " ++ db_path);
            Line "Do you want to recreate it? (yes/no): ";
            Line "Keeping existing database."])%list).
Proof.
  intro Hno. apply String.eqb_neq in Hno.
  unfold setup.create_database, bind, print, ret. cbn beta iota.
  rewrite Hno. cbn [negb]. cbn beta iota. unfold with_stdout. cbn.
  rewrite <- !app_assoc. reflexivity.
Qed.

Lemma create_database_keeps_on_other_answers_witness :
  store (snd (setup.create_database "event_planning.db" true "y" None true
                seeded_world))
  = seeded_store
  /\ next_conn (snd (setup.create_database "event_planning.db" true "y" None
                       true seeded_world)) = 0.
Proof.
  rewrite (create_database_keeps_on_other_answers "event_planning.db" "y"
             None true seeded_world); [split; reflexivity | discriminate].
Defined.

(** X20 -- on a path without a file, or on an existing database that was
    deleted after the answer "yes" (in any case, surrounding whitespace
    apart): when the path can be opened, [create_database] returns
    normally with its connection closed and leaves both tables present,
    empty and indexed, whatever rows there were, and both fetches then
    return the empty list without a database error; when the path cannot
    be opened, OperationalError leaves the function and there is no
    table. *)
Theorem create_database_leaves_empty_tables
        (db_path answer : string) (file_exists : bool)
        (unlink_error : option exn) (can_open : bool) (w : World) :
  handles_fresh w ->
  (file_exists = false /\ store w = no_tables)
  \/ (file_exists = true /\ setup.lower (strip answer) = "yes"
      /\ unlink_error = None) ->
  let run :=
    setup.create_database db_path file_exists answer unlink_error can_open w in
  let after := snd run in
  (can_open = true ->
   fst run = Ok tt
   /\ store after = empty_tables
   /\ open_conns after = open_conns w
   /\ fst (DatabaseManager.fetch_moderators_from_db None after) = Ok []
   /\ fst (DatabaseManager.fetch_participants_from_db None None after) = Ok []
   /\ stdout (snd (DatabaseManager.fetch_moderators_from_db None after))
      = stdout after)
  /\ (can_open = false ->
      fst run = Raise (OperationalError "unable to open database file")
      /\ store after = no_tables
      /\ open_conns after = open_conns w).
Proof.
  intros Hw Hcase run after. split; intros ->.
  - assert (fst run = Ok tt
            /\ store after = empty_tables
            /\ open_conns after = open_conns w) as [Hok [Hstore Hconns]].
    { subst after run. destruct Hcase as [[-> Hstore] | [-> [Hyes ->]]].
      - run_setup. rewrite ?Hstore. simpl.
        repeat (rewrite Nat.eqb_refl; simpl).
        repeat split. closed_again Hw.
      - unfold setup.create_database. unfold bind at 1. unfold bind at 1.
        unfold print at 1. cbn beta iota. unfold bind at 1. unfold print at 1.
        cbn beta iota. rewrite Hyes. cbn [String.eqb negb]. cbn beta iota.
        run_setup. repeat split. closed_again Hw. }
    destruct (fetch_on_empty_tables after Hstore) as [Hm [Hp [Hout _]]].
    repeat split; assumption.
  - subst after run. destruct Hcase as [[-> Hstore] | [-> [Hyes ->]]].
    + run_setup. repeat split. exact Hstore.
    + unfold setup.create_database. unfold bind at 1. unfold bind at 1.
      unfold print at 1. cbn beta iota. unfold bind at 1. unfold print at 1.
      cbn beta iota. rewrite Hyes. cbn [String.eqb negb]. cbn beta iota.
      run_setup. repeat split.
Qed.

Lemma create_database_leaves_empty_tables_witness :
  store (snd (setup.create_database "event_planning.db" true (" YES " ++ NL)
                None true seeded_world)) = empty_tables
  /\ store (snd (setup.create_database "event_planning.db" false "" None true
                   fresh_world)) = empty_tables
  /\ fst (setup.create_database "/nowhere/event_planning.db" false "" None
            false fresh_world)
     = Raise (OperationalError "unable to open database file").
Proof.
  destruct (create_database_leaves_empty_tables "event_planning.db"
              (" YES " ++ NL) true None true seeded_world) as [Hyes _];
    [apply Forall_nil | right; repeat split; reflexivity |].
  destruct (create_database_leaves_empty_tables "event_planning.db" ""
              false None true fresh_world) as [Hnew _];
    [apply Forall_nil | left; split; reflexivity |].
  destruct (create_database_leaves_empty_tables "/nowhere/event_planning.db"
              "" false None false fresh_world) as [_ Hclosed];
    [apply Forall_nil | left; split; reflexivity |].
  destruct (Hyes eq_refl) as [_ [Hyes' _]].
  destruct (Hnew eq_refl) as [_ [Hnew' _]].
  destruct (Hclosed eq_refl) as [Hraise _].
  repeat split; assumption.
Defined.















(** On the database that the script creates and seeds, a fetch by names
    that the planner answers from the name index returns the rows in the
    order of the index, not in the order in which they were stored or in
    which the names are given. *)
Example filtered_moderators_come_in_name_order :
  let created :=
    snd (setup.seed_sample_data
           (snd (setup.create_database "event_planning.db" false "" None true
                   fresh_world))) in
  option_map (map mi_name)
    match fst (DatabaseManager.fetch_moderators_from_db
                 (Some ["Vikram Singh"; "Jai Kumar"; "Anita Desai"]) created)
    with
    | Ok found => Some found
    | Raise _ => None
    end
  = Some ["Anita Desai"; "Jai Kumar"; "Vikram Singh"]
  /\ option_map (map mi_name)
       match fst (DatabaseManager.fetch_moderators_from_db None created) with
       | Ok found => Some found
       | Raise _ => None
       end
     = Some ["Jai Kumar"; "Priya Sharma"; "Rahul Verma"; "Anita Desai";
             "Vikram Singh"].
Proof. split; reflexivity. Qed.



(** * The heading pattern *)

Lemma match_star_at_least (cls : ascii -> bool) (k : string -> option nat)
      (low : nat) :
  (forall s m, k s = Some m -> low <= m) ->
  forall s m, match_star cls k s = Some m -> low <= m.
Proof.
  intros Hk s. induction s as [| c r IH]; intros m H; cbn [match_star] in H.
  - now apply (Hk EmptyString).
  - destruct (cls c); [| now apply (Hk (String c r))].
    destruct (match_star cls k r) as [n |] eqn:E;
      [| now apply (Hk (String c r))].
    inversion H. specialize (IH n eq_refl). lia.
Qed.

Lemma one_inversion cls p s n :
  match_items ((One, cls) :: p) s = Some n ->
  exists c r m,
    s = String c r /\ cls c = true /\ match_items p r = Some m /\ n = S m.
Proof.
  intro H. destruct s as [| c r]; cbn [match_items] in H; [discriminate H |].
  destruct (cls c) eqn:Ec; [| discriminate H].
  destruct (match_items p r) as [m |] eqn:E; [| discriminate H].
  inversion H. now exists c, r, m.
Qed.

Lemma plus_inversion cls p s n :
  match_items ((Plus, cls) :: p) s = Some n ->
  exists c r m,
    s = String c r /\ cls c = true
    /\ match_star cls (match_items p) r = Some m /\ n = S m.
Proof.
  intro H. destruct s as [| c r]; cbn [match_items] in H; [discriminate H |].
  destruct (cls c) eqn:Ec; [| discriminate H].
  destruct (match_star cls (match_items p) r) as [m |] eqn:E;
    [| discriminate H].
  inversion H. now exists c, r, m.
Qed.

(** X23 -- a heading is two stars, a digit, then more: every match of
    the heading pattern starts with "**" and a digit and is at least four
    characters long, so the split never cuts at an empty match, and bold
    text that is not numbered is no heading. *)
Theorem heading_starts_with_stars_and_digit (s : string) (n : nat) :
  match_items theme_heading s = Some n ->
  4 <= n
  /\ exists d r,
       s = String "*" (String "*" (String d r)) /\ is_digit d = true.
Proof.
  unfold theme_heading, lit. intro H.
  apply one_inversion in H. destruct H as [a [s1 [n1 [-> [Ha [H ->]]]]]].
  apply one_inversion in H. destruct H as [b [s2 [n2 [-> [Hb [H ->]]]]]].
  apply plus_inversion in H. destruct H as [d [r [m [-> [Hd [H ->]]]]]].
  apply Ascii.eqb_eq in Ha, Hb. subst a b. split.
  - assert (1 <= m); [| lia].
    apply (match_star_at_least is_digit _ 1) in H; [exact H |].
    intros s' m' H'. apply one_inversion in H'.
    destruct H' as [c [r' [k [_ [_ [_ ->]]]]]]. lia.
  - exists d, r. split; [reflexivity | exact Hd].
Qed.

Lemma heading_starts_with_stars_and_digit_witness :
  4 <= 5
  /\ exists d r,
       "**1. Title A**" = String "*" (String "*" (String d r))
       /\ is_digit d = true.
Proof.
  apply (heading_starts_with_stars_and_digit "**1. Title A**" 5).
  reflexivity.
Defined.

(** Bold text without a number is left in place by the split. *)
Example bold_title_is_no_heading :
  match_items theme_heading "**Title**" = None
  /\ parse_themes "**Title** and more" = ["**Title** and more"].
Proof. split; reflexivity. Qed.
